(** * get-maya-devkit: a shallow embedding of [get.py]

    The script scrapes a vendor page for devkit archive links, parses a
    version, an update number and a platform out of each link, filters the
    links by the user's specifiers and downloads and unpacks the matches.

    Text is modelled as [string] (a sequence of 8-bit characters).  The page
    body is [bytes] in the source and the links are [str] after [decode()];
    a decoded text is represented here by its UTF-8 bytes, which is exact
    for every pattern of the script because all of them are built from
    ASCII literals, ASCII character classes and [.].  [str.lower] and [int]
    are modelled on texts of ASCII characters, [os.path] is [posixpath].
    Exceptions are values: a function that can raise returns [option] or
    [result], and the functions that touch the file system, the network or
    the standard output are state transformers over [world], the outside
    being a parameter [env]. *)

From Stdlib Require Import Ascii ZArith Lia Bool DecimalString.
From stdpp Require Import gmap strings.

Local Open Scope Z_scope.

(** ** Text primitives *)

Module Text.

(** [s.startswith(p)] *)
Fixpoint startswith (p s : string) : bool :=
  match p, s with
  | EmptyString, _ => true
  | String a p', String b s' => Ascii.eqb a b && startswith p' s'
  | String _ _, EmptyString => false
  end.

(** [sub in s] *)
Fixpoint contains (sub s : string) : bool :=
  startswith sub s ||
  match s with
  | EmptyString => false
  | String _ s' => contains sub s'
  end.

(** [c in cs] for a single character *)
Fixpoint mem (c : ascii) (cs : string) : bool :=
  match cs with
  | EmptyString => false
  | String d cs' => Ascii.eqb c d || mem c cs'
  end.

Fixpoint all (f : ascii -> bool) (s : string) : bool :=
  match s with
  | EmptyString => true
  | String c s' => f c && all f s'
  end.

(** [os.path.basename] as [posixpath] has it: the part after the last
    slash.  On a Windows host [os.path] is [ntpath], which also cuts at a
    backslash and after a drive letter; the links are URLs, cut at slashes,
    and that case is not modelled. *)
Fixpoint basename (p : string) : string :=
  match p with
  | EmptyString => EmptyString
  | String c p' => if contains "/" p then basename p' else p
  end.

(** [s.replace("%20", "+")]: every occurrence, leftmost first. *)
Fixpoint replace_pct20 (s : string) : string :=
  match s with
  | EmptyString => EmptyString
  | String c s' =>
      match s' with
      | String d (String e s'') =>
          if Ascii.eqb c "%" && Ascii.eqb d "2" && Ascii.eqb e "0"
          then String "+" (replace_pct20 s'')
          else String c (replace_pct20 s')
      | _ => String c (replace_pct20 s')
      end
  end.

Definition lower_char (c : ascii) : ascii :=
  let n := nat_of_ascii c in
  if (Nat.leb 65 n && Nat.leb n 90)%bool then ascii_of_nat (n + 32) else c.

(** [s.lower()] on ASCII letters. *)
Fixpoint lower (s : string) : string :=
  match s with
  | EmptyString => EmptyString
  | String c s' => String (lower_char c) (lower s')
  end.

Fixpoint lits_of (s : string) : list ascii :=
  match s with
  | EmptyString => []
  | String c s' => c :: lits_of s'
  end.

End Text.

(** ** Regular expressions, as [re] runs them

    The two patterns of the script are flat sequences of literals,
    character classes, [.], greedy [*] and [+] on a single character, and
    one capturing group.  [rmatch] is the backtracking matcher of
    [re.match]: anchored at the start of the text, not at its end, every
    quantifier tried longest first, and the text of group 1 returned. *)

Module Re.

Inductive atom : Type :=
| Lit (c : ascii)
| Dot
| Class (cs : string).

Definition newline : ascii := "010"%char.

Definition accepts (a : atom) (c : ascii) : bool :=
  match a with
  | Lit d => Ascii.eqb c d
  | Dot => negb (Ascii.eqb c newline)
  | Class cs => Text.mem c cs
  end.

Inductive item : Type :=
| One (a : atom)
| Star (a : atom)
| Plus (a : atom)
| Open
| Close.

Definition push (cap : bool) (c : ascii) (grp : string) : string :=
  if cap then grp +:+ String c "" else grp.

Fixpoint greedy (a : atom) (k : string -> string -> option string)
    (cap : bool) (grp s : string) : option string :=
  match s with
  | String c s' =>
      if accepts a c then
        match greedy a k cap (push cap c grp) s' with
        | Some r => Some r
        | None => k grp s
        end
      else k grp s
  | EmptyString => k grp s
  end.

Fixpoint rmatch (p : list item) (cap : bool) (grp s : string) : option string :=
  match p with
  | [] => Some grp
  | One a :: p' =>
      match s with
      | String c s' =>
          if accepts a c then rmatch p' cap (push cap c grp) s' else None
      | EmptyString => None
      end
  | Star a :: p' => greedy a (rmatch p' cap) cap grp s
  | Plus a :: p' =>
      match s with
      | String c s' =>
          if accepts a c then greedy a (rmatch p' cap) cap (push cap c grp) s'
          else None
      | EmptyString => None
      end
  | Open :: p' => rmatch p' true "" s
  | Close :: p' => rmatch p' false grp s
  end.

Definition lits (s : string) : list item :=
  map (fun c => One (Lit c)) (Text.lits_of s).

(** [re.compile(p).match(s)], then [.group(1)]; [None] when there is no
    match. *)
Definition match_group (p : list item) (s : string) : option string :=
  rmatch p false "" s.

End Re.

(** ** The metadata parsers *)

Import Re.

(** [r'.*/devkit\+(20[12][0-9])/.*'] *)
Definition version_pattern : list item :=
  [Star Dot] ++ lits "/devkit+" ++
  [Open] ++ lits "20" ++ [One (Class "12"); One (Class "0123456789")] ++ [Close] ++
  lits "/" ++ [Star Dot].

(** [parse_maya_version]: [None] stands for the [AttributeError] raised by
    [.group] on a failed match. *)
Definition parse_maya_version (url : string) : option string :=
  match_group version_pattern (Text.replace_pct20 url).

(** [r'.*<a href="(https://.*\.amazonaws.com/.*/Maya/devkit+.*/.*Maya.*[.dmg zip tgz])".*>.*']

    As [re] reads it: the dot of [.com] is unescaped, [t+] is one or more
    [t], and the bracket is a class of single characters. *)
Definition dquote : ascii := "034"%char.

Definition links_pattern : list item :=
  [Star Dot] ++ lits "<a href=" ++ [One (Lit dquote)] ++
  [Open] ++ lits "https://" ++ [Star Dot] ++ lits ".amazonaws" ++ [One Dot] ++
  lits "com/" ++ [Star Dot] ++ lits "/Maya/devki" ++ [Plus (Lit "t")] ++
  [Star Dot] ++ lits "/" ++ [Star Dot] ++ lits "Maya" ++ [Star Dot] ++
  [One (Class ".dmg zip tgz")] ++ [Close] ++
  [One (Lit dquote)] ++ [Star Dot] ++ lits ">" ++ [Star Dot].

(** ** UTF-8, for [bytes.decode()] *)

Module Utf8.

Definition code (c : ascii) : N := N_of_ascii c.
Definition between (lo hi : N) (c : ascii) : bool :=
  (N.leb lo (code c) && N.leb (code c) hi)%bool.
Definition cont : ascii -> bool := between 128 191.

(** Well-formed UTF-8 (no overlong form, no surrogate, at most U+10FFFF),
    which is what the strict decoder accepts. *)
Fixpoint valid (s : string) : bool :=
  match s with
  | EmptyString => true
  | String a r =>
      if between 0 127 a then valid r
      else match r with
      | EmptyString => false
      | String b r1 =>
          if between 194 223 a then cont b && valid r1
          else match r1 with
          | EmptyString => false
          | String c r2 =>
              if between 224 239 a then
                (if N.eqb (code a) 224 then between 160 191 b
                 else if N.eqb (code a) 237 then between 128 159 b
                 else cont b) && cont c && valid r2
              else match r2 with
              | EmptyString => false
              | String d r3 =>
                  between 240 244 a &&
                  (if N.eqb (code a) 240 then between 144 191 b
                   else if N.eqb (code a) 244 then between 128 143 b
                   else cont b) && cont c && cont d && valid r3
              end
          end
      end
  end.

(** [b.decode()]: the text, or [None] for [UnicodeDecodeError]. *)
Definition decode (s : string) : option string :=
  if valid s then Some s else None.

End Utf8.

(** [parse_links]: one match attempt per line; a line that matches gives
    its group 1, decoded.  [None] is the [UnicodeDecodeError] of a group
    that is not UTF-8. *)
Fixpoint parse_links (lines : list string) : option (list string) :=
  match lines with
  | [] => Some []
  | ln :: rest =>
      match match_group links_pattern ln with
      | None => parse_links rest
      | Some g =>
          match Utf8.decode g with
          | None => None
          | Some u =>
              match parse_links rest with
              | None => None
              | Some us => Some (u :: us)
              end
          end
      end
  end.

(** The line feed that ends a line of [readlines()]. *)
Definition eol : string := String newline "".

(** ** Exceptions

    The exceptions that can leave a function of the script.  What
    [urlopen], [readlines] and [decode] raise is caught inside [parse] and
    never leaves it. *)

Inductive exn : Type :=
| AttributeError
| ValueError
| CannotParseUpdate (base_name : string)
| DownloadError (url : string)
| ExtractError (file_path : string)
| OSError (path : string)
| SystemExit (code : Z).

Inductive result (A : Type) : Type :=
| Ok (a : A)
| Raise (e : exn).
Arguments Ok {A} a.
Arguments Raise {A} e.

Definition rbind {A B : Type} (m : result A) (f : A -> result B) : result B :=
  match m with
  | Ok a => f a
  | Raise e => Raise e
  end.

Notation "'try' x <- m 'in' k" := (rbind m (fun x => k))
  (at level 10, x name, m at level 100, k at level 200).

(** ** Update number *)

(** ["%d" % i] and ["%s" % i] for an integer. *)
Definition str_of_Z (z : Z) : string :=
  DecimalString.NilZero.string_of_int (Z.to_int z).

(** The table of irregular names, [{...}.get(maya_ver, {})], in the order
    the literal lists its entries. *)
Definition chaotic (maya_ver : string) : list (string * Z) :=
  if String.eqb maya_ver "2016" then
    [("Maya2016_DEVKIT", 0); ("Maya2016.1_DEVKIT", 1); ("Maya2016ext2_DEVKIT", 2)]
  else if String.eqb maya_ver "2017" then
    [("Maya2017_DEVKIT", 0); ("Maya2017u3_DEVKIT", 3); ("Maya2017u4_DEVKIT", 4)]
  else if String.eqb maya_ver "2018" then
    [("Maya2018-DEVKIT", 0); ("Maya2018_DEVKIT", 0);
     ("Maya2018u3_DEVKIT", 3); ("Maya2018u4_DEVKIT", 4)]
  else [].

(** [for prefix, num in chaotic.items(): if base_name.startswith(prefix): return num] *)
Fixpoint lookup_prefix (tbl : list (string * Z)) (base_name : string) : option Z :=
  match tbl with
  | [] => None
  | (prefix, num) :: tbl' =>
      if Text.startswith prefix base_name then Some num
      else lookup_prefix tbl' base_name
  end.

Definition generic_prefix (maya_ver : string) : string :=
  "Autodesk_Maya_" +:+ maya_ver +:+ "_DEVKIT".

Definition update_prefix (maya_ver : string) (i : Z) : string :=
  "Autodesk_Maya_" +:+ maya_ver +:+ "_" +:+ str_of_Z i +:+ "_Update_DEVKIT".

(** [for i in range(1, 10): ... return i] *)
Fixpoint first_update (maya_ver base_name : string) (range : list Z) : option Z :=
  match range with
  | [] => None
  | i :: range' =>
      if Text.startswith (update_prefix maya_ver i) base_name then Some i
      else first_update maya_ver base_name range'
  end.

Definition range_1_10 : list Z := [1; 2; 3; 4; 5; 6; 7; 8; 9].

Definition update_of_base (base_name maya_ver : string) : result Z :=
  match lookup_prefix (chaotic maya_ver) base_name with
  | Some num => Ok num
  | None =>
      if Text.startswith (generic_prefix maya_ver) base_name then Ok 0
      else
        match first_update maya_ver base_name range_1_10 with
        | Some i => Ok i
        | None => Raise (CannotParseUpdate base_name)
        end
  end.

Definition parse_update_version (url maya_ver : string) : result Z :=
  update_of_base (Text.basename url) maya_ver.

(** ** Platform *)

(** [None] is Python's [None], returned by falling off the end. *)
Definition parse_platform (url : string) : option string :=
  let base_name := Text.lower (Text.basename url) in
  if Text.contains "windows" base_name then Some "Windows"
  else if Text.contains "linux" base_name then Some "Linux"
  else if Text.contains "macos" base_name || Text.contains "mac" base_name
  then Some "Mac"
  else None.

(** ** The version specifier *)

(** [s.split(".")] *)
Fixpoint split_dot (s : string) : list string :=
  match s with
  | EmptyString => [EmptyString]
  | String c s' =>
      if Ascii.eqb c "." then EmptyString :: split_dot s'
      else
        match split_dot s' with
        | h :: t => String c h :: t
        | [] => [String c EmptyString]
        end
  end.

Module PyInt.

(** White space of an ASCII text: tab, line feed, vertical tab, form
    feed, carriage return and blank. *)
Definition is_space (c : ascii) : bool :=
  let n := N_of_ascii c in
  ((N.leb 9 n && N.leb n 13) || N.eqb n 32)%bool.

Definition is_digit (c : ascii) : bool :=
  let n := N_of_ascii c in (N.leb 48 n && N.leb n 57)%bool.

Definition digit_val (c : ascii) : Z := Z.of_N (N_of_ascii c) - 48.

Fixpoint lstrip (s : string) : string :=
  match s with
  | String c s' => if is_space c then lstrip s' else s
  | EmptyString => EmptyString
  end.

Definition rstrip (s : string) : string :=
  String.rev (lstrip (String.rev s)).

(** Decimal digits with single underscores between them. *)
Fixpoint digits (acc : Z) (after_digit : bool) (s : string) : option Z :=
  match s with
  | EmptyString => if after_digit then Some acc else None
  | String c s' =>
      if is_digit c then digits (10 * acc + digit_val c) true s'
      else if Ascii.eqb c "_" then
        (if after_digit then digits acc false s' else None)
      else None
  end.

(** [int(s)] for a text of ASCII characters: surrounding white space is
    dropped, then an optional sign, then the digits.  [None] is
    [ValueError].  Outside this model: digits and white space beyond
    ASCII, which [int] reads as well, and the refusal of literals of more
    than 4300 digits by CPython from 3.11 on. *)
Definition int (s : string) : option Z :=
  match rstrip (lstrip s) with
  | String "-" d => option_map Z.opp (digits 0 false d)
  | String "+" d => digits 0 false d
  | d => digits 0 false d
  end.

End PyInt.

(** [maya, update = (maya.split(".") + [""])[:2]] and
    [update = -1 if update == "*" else int(update or 0)] *)
Definition split_spec (maya : string) : string * string :=
  match split_dot maya ++ [EmptyString] with
  | a :: b :: _ => (a, b)
  | _ => (EmptyString, EmptyString)
  end.

Definition update_of_spec (update : string) : result Z :=
  if String.eqb update "*" then Ok (-1)
  else if String.eqb update "" then Ok 0
  else match PyInt.int update with
       | Some n => Ok n
       | None => Raise ValueError
       end.

(** ** The filter *)

Definition candidate : Type := string * string * Z.

Definition nonempty (s : string) : bool := negb (String.eqb s "").

Definition same_platform (platform_ : string) (p : option string) : bool :=
  match p with
  | Some l => String.eqb platform_ l
  | None => false
  end.

Definition version_of (url : string) : result string :=
  match parse_maya_version url with
  | Some v => Ok v
  | None => Raise AttributeError
  end.

(** The loop of [parse] over [url_list]. *)
Fixpoint collect (maya : string) (update : Z) (platform_ : string)
    (url_list : list string) : result (list candidate) :=
  match url_list with
  | [] => Ok []
  | r :: rest =>
      try maya_ver <- version_of r in
      try update_num <- parse_update_version r maya_ver in
      if nonempty maya && negb (String.eqb maya maya_ver) then
        collect maya update platform_ rest
      else if (0 <=? update) && negb (update =? update_num) then
        collect maya update platform_ rest
      else if nonempty platform_ && negb (same_platform platform_ (parse_platform r)) then
        collect maya update platform_ rest
      else
        try found <- collect maya update platform_ rest in
        Ok ((r, maya_ver, update_num) :: found)
  end.

(** [parse] from the list of links on: the specifier is read first, then
    the links are filtered. *)
Definition filter_links (maya platform_ : string) (url_list : list string)
  : result (list candidate) :=
  let '(major, upd) := split_spec maya in
  try update <- update_of_spec upd in
  collect major update platform_ url_list.

(** The folder the vendor's links live in. *)
Definition U (s : string) : string :=
  "https://autodesk-adn-transfer.s3-us-west-2.amazonaws.com/ADN+Extranet/M%26E/Maya/" +:+ s.

(** ** The world: file system, standard output, network *)

Inductive fetch_result : Type :=
| FetchRaises (msg : string)
| Response (code : Z) (body : list string).

(** What a tool has done when it stops: the directories it has made and
    the files it has written, with their full paths, and whether it has
    failed.  Where the members of an archive go and how their names are
    cleaned is the tool's business and is left to it. *)
Record unpacked : Type := {
  made : list string;
  written : list (string * string);
  failed : bool
}.

(** What the script cannot decide by itself. *)
Record env : Type := {
  host : string;                       (* [platform.system()] *)
  ROOT : string;                       (* directory of the script *)
  site : fetch_result;                 (* [urlopen] on [SITE], then [readlines] *)
  remote : string -> option string;    (* content behind a URL; [None]: the transfer fails *)
  partial : string -> option string;   (* for a transfer that fails: what it has written to
                                          its target before; [None]: it fails before the
                                          target is opened *)
  unpack : string -> string -> string -> unpacked
                                       (* tool, archive content, directory handed to the
                                          tool: what the tool does *)
}.

Record world : Type := {
  dirs : gset string;
  files : gmap string string;
  log : list string
}.

Definition M (A : Type) : Type := world -> result A * world.

Definition ret {A : Type} (a : A) : M A := fun w => (Ok a, w).
Definition raise {A : Type} (e : exn) : M A := fun w => (Raise e, w).
Definition bind {A B : Type} (m : M A) (f : A -> M B) : M B :=
  fun w => match m w with
           | (Ok a, w') => f a w'
           | (Raise e, w') => (Raise e, w')
           end.
Definition lift {A : Type} (r : result A) : M A := fun w => (r, w).

Notation "'do' x <- m 'in' k" := (bind m (fun x => k))
  (at level 10, x name, m at level 100, k at level 200).
Notation "m >> k" := (bind m (fun _ => k))
  (at level 100, k at level 200, right associativity).

Definition SITE : string :=
  "https://www.autodesk.com/content/autodesk/global/en/" +:+
  "developer-network/platform-technologies/maya.html".

Definition _log (message : string) : M unit :=
  fun w => (Ok tt, {| dirs := dirs w; files := files w; log := log w ++ [message] |}).

(** [sys.exit(code)] *)
Definition sys_exit {A : Type} (code : Z) : M A := raise (SystemExit code).

Module Fs.

(** [posixpath.join(a, b)] *)
Definition ends_with_slash (a : string) : bool :=
  Text.startswith "/" (String.rev a).

Definition join (a b : string) : string :=
  if Text.startswith "/" b then b
  else if String.eqb a "" || ends_with_slash a then a +:+ b
  else a +:+ "/" +:+ b.

(** The proper ancestors of a path: its prefixes that end before a slash. *)
Fixpoint ancestors_from (pre s : string) : list string :=
  match s with
  | EmptyString => []
  | String c s' =>
      (if Ascii.eqb c "/" && negb (String.eqb pre "") then [pre] else []) ++
      ancestors_from (pre +:+ String c "") s'
  end.

Definition ancestors (p : string) : list string := ancestors_from "" p.

Definition isdir (p : string) (w : world) : bool := bool_decide (p ∈ dirs w).

Definition is_file (p : string) (w : world) : bool :=
  bool_decide (is_Some (files w !! p)).

Definition add_dirs (ps : list string) (w : world) : world :=
  {| dirs := list_to_set ps ∪ dirs w; files := files w; log := log w |}.

(** [os.makedirs(p)]: fails when [p] is there already or when a file is
    in the way; otherwise [p] and its missing ancestors become
    directories. *)
Definition makedirs (p : string) : M unit :=
  fun w =>
    if isdir p w || existsb (fun q => is_file q w) (p :: ancestors p)
    then (Raise (OSError p), w)
    else (Ok tt, add_dirs (p :: ancestors p) w).

Definition write_file (p content : string) (w : world) : world :=
  {| dirs := list_to_set (ancestors p) ∪ dirs w;
     files := <[p := content]> (files w);
     log := log w |}.

Definition write_all (fs : list (string * string)) (w : world) : world :=
  fold_left (fun w' f => write_file (fst f) (snd f) w') fs w.

(** The world after a tool has done [u]. *)
Definition unpacked_in (u : unpacked) (w : world) : world :=
  write_all (written u) (add_dirs (made u) w).

End Fs.

(** Running one of the three tools on [file_path] with the directory
    [dir]: [extractall(dir)] of [zipfile] and [tarfile], and [7z] started
    in [dir].  What the tool has made and written stays when it fails. *)
Definition run_tool (e : env) (tool file_path dir : string) : M unit :=
  fun w =>
    match files w !! file_path with
    | None => (Raise (ExtractError file_path), w)
    | Some content =>
        let u := unpack e tool content dir in
        if failed u then (Raise (ExtractError file_path), Fs.unpacked_in u w)
        else (Ok tt, Fs.unpacked_in u w)
    end.

Definition extract (e : env) (file_path dest : string) : M unit :=
  _log ("-- Unzipping:   " +:+ file_path) >>
  (fun w => if Fs.isdir dest w then (Ok tt, w) else Fs.makedirs dest w) >>
  if String.eqb (host e) "Windows" then run_tool e "zipfile" file_path dest
  else if String.eqb (host e) "Linux" then run_tool e "tarfile" file_path dest
  else if String.eqb (host e) "Darwin" then
    run_tool e "7z x -oFRED" file_path dest
  else ret tt.

(** [request.urlretrieve(url, file_path)]: the URL is opened, then the
    target is opened for writing, then the body is copied.  A transfer can
    fail before the target is opened, which leaves everything as it was,
    or later, which leaves the target with what had been written. *)
Definition urlretrieve (e : env) (url file_path : string) : M unit :=
  fun w =>
    match remote e url with
    | Some content =>
        if Fs.isdir file_path w || Fs.ends_with_slash file_path
        then (Raise (OSError file_path), w)
        else (Ok tt, Fs.write_file file_path content w)
    | None =>
        match partial e url with
        | None => (Raise (DownloadError url), w)
        | Some part =>
            if Fs.isdir file_path w || Fs.ends_with_slash file_path
            then (Raise (OSError file_path), w)
            else (Raise (DownloadError url), Fs.write_file file_path part w)
        end
    end.

Definition download (e : env) (url : string) : M string :=
  _log ("-- Downloading: " +:+ url) >>
  let base_name := Text.basename url in
  let file_path := Fs.join (ROOT e) base_name in
  urlretrieve e url file_path >>
  ret file_path.

Definition dest_of (e : env) (maya_ver : string) (update_num : Z) : string :=
  Fs.join (ROOT e) (maya_ver +:+ "." +:+ str_of_Z update_num).

Definition obtain (e : env) (url maya_ver : string) (update_num : Z) : M unit :=
  let dest := dest_of e maya_ver update_num in
  fun w =>
    if negb (Fs.isdir dest w) then
      (do file_path <- download e url in extract e file_path dest) w
    else (Ok tt, w).

(** ** [parse] and [main] *)

(** Stands for [str(e)] of the [UnicodeDecodeError], whose text names the
    byte, its position and the reason. *)
Definition decode_error_text : string := "'utf-8' codec can't decode byte".

(** [maya] is [None] when the command line has no [--maya]. *)
Definition parse (e : env) (maya : option string) (platform_ : string)
  : M (list candidate) :=
  match maya with
  | None => raise AttributeError
  | Some maya =>
      let '(major, upd) := split_spec maya in
      do update <- lift (update_of_spec upd) in
      match site e with
      | FetchRaises msg => _log msg >> sys_exit 1
      | Response code body =>
          if code =? 200 then
            match parse_links body with
            | None => _log decode_error_text >> sys_exit 1
            | Some url_list => lift (collect major update platform_ url_list)
            end
          else _log (str_of_Z code +:+ " returned from: " +:+ SITE) >> sys_exit 1
      end
  end.

Definition str_of_arg (maya : option string) : string :=
  match maya with Some m => m | None => "None" end.

Fixpoint for_each (e : env) (dryrun : bool) (found : list candidate) : M unit :=
  match found with
  | [] => ret tt
  | (url, maya_ver, update_num) :: rest =>
      (if dryrun then _log url else obtain e url maya_ver update_num) >>
      for_each e dryrun rest
  end.

Definition main (e : env) (maya : option string) (platform_ : string)
    (dryrun : bool) : M unit :=
  do found <- parse e maya platform_ in
  match found with
  | _ :: _ => for_each e dryrun found
  | [] =>
      _log ("No link for Maya " +:+ str_of_arg maya +:+ " " +:+ platform_ +:+
            String newline "" +:+ "Can you find it there? " +:+ SITE) >>
      sys_exit 1
  end.

(** The status the process ends with: [0] after a normal return, the
    argument of [sys.exit], and [1] after an exception nobody caught (the
    interpreter prints the traceback and ends the process with 1). *)
Definition exit_status {A : Type} (r : result A) : Z :=
  match r with
  | Ok _ => 0
  | Raise (SystemExit code) => code
  | Raise _ => 1
  end.

(** ** Specification vocabulary *)

(** [s] starts with [p] / [sub] occurs in [s], as propositions. *)
Definition starts (p s : string) : Prop := exists t, s = p +:+ t.
Definition occurs (sub s : string) : Prop := exists pre post, s = pre +:+ sub +:+ post.


(** The version pattern after its leading [.*]. *)
Definition version_tail : list item :=
  lits "/devkit+" ++
  [Open] ++ lits "20" ++ [One (Class "12"); One (Class "0123456789")] ++ [Close] ++
  lits "/" ++ [Star Dot].

(** What a group has collected after the characters of [pre]. *)
Definition pushes (cap : bool) (pre grp : string) : string :=
  if cap then grp +:+ pre else grp.

Definition no_newline (s : string) : Prop := Text.all (accepts Dot) s = true.

(** A text of the form [20[12][0-9]]. *)
Definition is_year (y : string) : Prop :=
  exists c1 c2, y = String "2" (String "0" (String c1 (String c2 ""))) /\
                Text.mem c1 "12" = true /\ Text.mem c2 "0123456789" = true.

(** The path segment [/devkit+YYYY/]. *)
Definition segment (y : string) : string := "/devkit+" +:+ y +:+ "/".

Definition has_segment (y u : string) : Prop := is_year y /\ occurs (segment y) u.

(** [y] is the year of the last segment of [u]. *)
Definition last_segment (y u : string) : Prop :=
  is_year y /\
  exists pre post, u = pre +:+ segment y +:+ post /\
    forall y', is_year y' -> ~ occurs (segment y') ("devkit+" +:+ y +:+ "/" +:+ post).

(** The metadata of a link, as the loop of [parse] computes it before it
    filters. *)
Definition meta (url : string) : result candidate :=
  try maya_ver <- version_of url in
  try update_num <- parse_update_version url maya_ver in
  Ok (url, maya_ver, update_num).

Fixpoint metas (url_list : list string) : result (list candidate) :=
  match url_list with
  | [] => Ok []
  | r :: rest =>
      try c <- meta r in
      try cs <- metas rest in
      Ok (c :: cs)
  end.

Definition url_of (c : candidate) : string := fst (fst c).
Definition version_in (c : candidate) : string := snd (fst c).
Definition update_in (c : candidate) : Z := snd c.

(** A candidate passes the filter of [parse] for the major part [major],
    the update number [update] read from the specifier (negative: any) and
    the platform [platform_]. *)
Definition passes (major : string) (update : Z) (platform_ : string)
    (c : candidate) : Prop :=
  (major = "" \/ major = version_in c) /\
  (update < 0 \/ update = update_in c) /\
  (platform_ = "" \/ parse_platform (url_of c) = Some platform_).

#[global] Instance passes_dec major update platform_ c :
  Decision (passes major update platform_ c).
Proof. unfold passes. apply _. Defined.

(** The filter condition in the words of the specification: the update
    part is the wild card, or it denotes the update number of the
    candidate, an absent part denoting 0. *)
Definition claimed_update_ok (upd : string) (n : Z) : Prop :=
  upd = "*" \/ (if String.eqb upd "" then Some 0 else PyInt.int upd) = Some n.

Definition claimed_passes (maya platform_ : string) (c : candidate) : Prop :=
  (fst (split_spec maya) = "" \/ fst (split_spec maya) = version_in c) /\
  claimed_update_ok (snd (split_spec maya)) (update_in c) /\
  (platform_ = "" \/ parse_platform (url_of c) = Some platform_).

(** Links of the kind the vendor page carries, for the sample runs. *)
Definition link_2020_0_linux : string := U "devkit+2020/Autodesk_Maya_2020_DEVKIT_Linux.tgz".
Definition link_2020_1_windows : string :=
  U "devkit+2020/Autodesk_Maya_2020_1_Update_DEVKIT_Windows.zip".
Definition link_2018_0_mac : string := U "devkit+2018/Maya2018-DEVKIT_Mac.dmg".
Definition link_2018_4_windows : string := U "devkit+2018/Maya2018u4_DEVKIT_Windows.zip".

(** An item that cannot consume a line feed. *)
Definition newline_free (i : item) : bool :=
  match i with
  | One a | Star a | Plus a => negb (accepts a newline)
  | Open | Close => true
  end.

(** [s.endswith(suffix)] *)
Definition endswith (suffix s : string) : bool :=
  Text.startswith (String.rev suffix) (String.rev s).

(** The archive extensions the specification names. *)
Definition archive_extension (url : string) : bool :=
  endswith ".dmg" url || endswith ".zip" url || endswith ".tgz" url.

Definition anchor (url rest : string) : string :=
  "<li><a href=" +:+ String dquote "" +:+ url +:+ String dquote "" +:+ rest +:+ eol.

Definition link_notes_txt : string := U "devkit+2020/Maya_release_notes.txt".
Definition link_2030 : string := U "devkit+2030/Autodesk_Maya_2030_DEVKIT_Windows.zip".

(** A world and environments for the sample runs. *)
Definition sample_world : world :=
  {| dirs := {["/opt/get"]}; files := ∅; log := [] |}.

Definition sample_env (host_ : string) (page : fetch_result) : env :=
  {| host := host_; ROOT := "/opt/get"; site := page;
     remote := fun _ => Some "archive";
     partial := fun _ => None;
     unpack := fun _ _ dir =>
       {| made := [dir +:+ "/include"];
          written := [(dir +:+ "/include/maya/MFn.h", "header")];
          failed := false |} |}.


(** An environment in which the tool fails after one file. *)
Definition corrupt_env : env :=
  {| host := "Linux"; ROOT := "/opt/get"; site := FetchRaises "";
     remote := fun _ => Some "not a tar file";
     partial := fun _ => None;
     unpack := fun _ _ dir =>
       {| made := []; written := [(dir +:+ "/README", "read me")]; failed := true |} |}.

(** An environment in which one link cannot be transferred. *)
Definition flaky_env (bad : string) : env :=
  {| host := "Windows"; ROOT := "/opt/get"; site := FetchRaises "";
     remote := fun u => if String.eqb u bad then None else Some "archive";
     partial := fun _ => None;
     unpack := fun _ _ _ => {| made := []; written := []; failed := false |} |}.

Definition sample_page : list string :=
  ["<ul>" +:+ eol;
   anchor link_2020_0_linux " target=_blank>Linux</a></li>";
   anchor link_2020_1_windows " target=_blank>Windows</a></li>";
   "</ul>" +:+ eol].

(** [sys.exit] is the only exception that carries its own status. *)
Definition is_exit (x : exn) : bool :=
  match x with
  | SystemExit _ => true
  | _ => false
  end.


(** The cases in which the script calls [sys.exit(1)]: the specifier has
    been read, and the [try] block raises, or the status is not 200, or no
    candidate passes. *)
Definition exits_1 (e : env) (maya : option string) (platform_ : string)
    (w : world) : Prop :=
  exists m update, maya = Some m /\ update_of_spec (snd (split_spec m)) = Ok update /\
    ((exists msg, site e = FetchRaises msg) \/
     (exists body, site e = Response 200 body /\ parse_links body = None) \/
     (exists code body, site e = Response code body /\ code <> 200) \/
     fst (parse e maya platform_ w) = Ok []).

Definition logged (msgs : list string) (w : world) : world :=
  {| dirs := dirs w; files := files w; log := log w ++ msgs |}.

(** ** The command line

    What [parser.parse_args] returns: [--maya] has no default, [--platform]
    defaults to [platform.system()], [--dryrun] to [False]. *)
Record args : Type := {
  arg_maya : option string;
  arg_platform : option string;
  arg_dryrun : bool
}.

(** The block under [if __name__ == "__main__"], after the arguments have
    been read. *)
Definition entry (e : env) (a : args) : M unit :=
  main e (arg_maya a)
    (match arg_platform a with Some p => p | None => host e end)
    (arg_dryrun a).

(** A text without dot. *)
Definition dot_free (s : string) : Prop := Text.mem "." s = false.

(** A text of ASCII characters. *)
Definition ascii_text (s : string) : Prop := Text.all (Utf8.between 0 127) s = true.

(** One line of a page that carries two links. *)
Definition two_links_line : string :=
  "<a href=" +:+ String dquote "" +:+ link_2020_0_linux +:+ String dquote "" +:+
  ">Linux</a> <a href=" +:+ String dquote "" +:+ link_2020_1_windows +:+
  String dquote "" +:+ ">Windows</a>" +:+ eol.

(** [w'] has every directory and every file name of [w], and its output
    starts with the output of [w]. *)
Definition grows (w w' : world) : Prop :=
  dirs w ⊆ dirs w' /\ dom (files w) ⊆ dom (files w') /\ log w `prefix_of` log w'.

(** The file system of [w'] is that of [w]. *)
Definition same_fs (w w' : world) : Prop :=
  dirs w' = dirs w /\ files w' = files w.
(** * Sample runs *)

Example parse_maya_version_ex1 :
  parse_maya_version
    "https://autodesk-adn-transfer.s3-us-west-2.amazonaws.com/ADN+Extranet/M%26E/Maya/devkit%202020/Autodesk_Maya_2020_1_Update_DEVKIT_Windows.zip"
  = Some "2020".
Proof. vm_compute. reflexivity. Qed.

Example parse_maya_version_ex2 :
  parse_maya_version "https://s3.amazonaws.com/x/Maya/devkit/Maya.zip" = None.
Proof. vm_compute. reflexivity. Qed.

Example parse_maya_version_ex3 :
  map parse_maya_version
    ["/devkit+2020/devkit+2021/"; "a" +:+ eol +:+ "/devkit+2020/";
     "/x/devkit+2019/y" +:+ eol +:+ "/devkit+2021/"; "xdevkit+2020/"; "/devkit+2009/"]
  = [Some "2021"; None; Some "2019"; None; None].
Proof. vm_compute. reflexivity. Qed.

Example parse_links_ex2 :
  parse_links
    ["<a href=" +:+ String dquote "" +:+ "https://s3.amazonaws.com/x/Maya/devkit/Maya.zip"
       +:+ String dquote "" +:+ " class=" +:+ String dquote "" +:+ "top"
       +:+ String dquote "" +:+ ">"]
  = Some ["https://s3.amazonaws.com/x/Maya/devkit/Maya.zip" +:+ String dquote ""
          +:+ " class=" +:+ String dquote "" +:+ "top"].
Proof. vm_compute. reflexivity. Qed.

Example parse_links_ex1 :
  parse_links
    ["<html>" +:+ eol;
     "<li><a href=" +:+ String dquote "" +:+
       "https://autodesk-adn-transfer.s3-us-west-2.amazonaws.com/ADN+Extranet/M%26E/Maya/devkit+2020/Autodesk_Maya_2020_1_Update_DEVKIT_Windows.zip"
       +:+ String dquote "" +:+ " target=_blank>Windows</a></li>" +:+ eol]
  = Some ["https://autodesk-adn-transfer.s3-us-west-2.amazonaws.com/ADN+Extranet/M%26E/Maya/devkit+2020/Autodesk_Maya_2020_1_Update_DEVKIT_Windows.zip"].
Proof. vm_compute. reflexivity. Qed.

Example update_ex1 : parse_update_version (U "devkit+2016/Maya2016ext2_DEVKIT_Windows.zip") "2016" = Ok 2.
Proof. vm_compute. reflexivity. Qed.

Example update_ex2 : parse_update_version (U "devkit+2020/Autodesk_Maya_2020_3_Update_DEVKIT_Linux.tgz") "2020" = Ok 3.
Proof. vm_compute. reflexivity. Qed.

Example int_ex :
  map PyInt.int [" 12 "; "-1"; "1_0"; "1__0"; "_1"; "x"; "+07"; ""; "- 1"; "1 "; "--1";
                 "1_"; "-"; "-0"; "00"; " -1 "; "1 2"; "+_1"]
  = [Some 12; Some (-1); Some 10; None; None; None; Some 7; None; None; Some 1; None;
     None; None; Some 0; Some 0; Some (-1); None; None].
Proof. vm_compute. reflexivity. Qed.

Example split_ex : map split_spec ["2020.*"; "2018"; ""; "2020.1.5"; ".3"]
  = [("2020", "*"); ("2018", ""); ("", ""); ("2020", "1"); ("", "3")].
Proof. vm_compute. reflexivity. Qed.

Example filter_ex :
  filter_links "2020.*" "" [U "devkit+2020/Autodesk_Maya_2020_3_Update_DEVKIT_Linux.tgz";
                            U "devkit+2019/Autodesk_Maya_2019_DEVKIT_Mac.dmg"]
  = Ok [(U "devkit+2020/Autodesk_Maya_2020_3_Update_DEVKIT_Linux.tgz", "2020", 3)].
Proof. vm_compute. reflexivity. Qed.

(** * Properties *)

(** ** Text *)

Section TextFacts.

Lemma append_nil_l (s : string) : "" +:+ s = s.
Proof. reflexivity. Qed.

Lemma append_cons (c : ascii) (s t : string) : String c s +:+ t = String c (s +:+ t).
Proof. reflexivity. Qed.

Lemma append_nil_r (s : string) : s +:+ "" = s.
Proof. induction s as [|c s IH]; [reflexivity|]. rewrite append_cons, IH. reflexivity. Qed.

Lemma append_assoc (s t u : string) : (s +:+ t) +:+ u = s +:+ (t +:+ u).
Proof.
  induction s as [|c s IH]; [reflexivity|].
  rewrite !append_cons, IH. reflexivity.
Qed.

Lemma startswith_spec (p s : string) : Text.startswith p s = true <-> starts p s.
Proof.
  revert s. induction p as [|a p IH]; intros s.
  - split; [intros _; exists s; reflexivity | reflexivity].
  - destruct s as [|b s]; simpl.
    + split; [discriminate | intros [t Ht]; discriminate].
    + rewrite andb_true_iff, IH. split.
      * intros [Hab [t ->]]. apply Ascii.eqb_eq in Hab as ->.
        exists t. reflexivity.
      * intros [t Ht]. rewrite append_cons in Ht. injection Ht as -> ->.
        split; [apply Ascii.eqb_refl | exists t; reflexivity].
Qed.

Lemma startswith_app (p t : string) : Text.startswith p (p +:+ t) = true.
Proof. apply startswith_spec. exists t. reflexivity. Qed.

Lemma contains_spec (sub s : string) : Text.contains sub s = true <-> occurs sub s.
Proof.
  induction s as [|c s IH].
  - simpl. rewrite orb_false_r, startswith_spec. split.
    + intros [t Ht]. exists "", t. exact Ht.
    + intros [pre [post H]]. destruct pre; [exists post; exact H | discriminate].
  - simpl. rewrite orb_true_iff, startswith_spec, IH. split.
    + intros [[t Ht] | [pre [post H]]].
      * exists "", t. exact Ht.
      * exists (String c pre), post. rewrite append_cons, H. reflexivity.
    + intros [pre [post H]]. destruct pre as [|d pre].
      * left. exists post. exact H.
      * right. rewrite append_cons in H. injection H as _ ->.
        exists pre, post. reflexivity.
Qed.

Lemma contains_false (sub s : string) : Text.contains sub s = false <-> ~ occurs sub s.
Proof.
  rewrite <- contains_spec. destruct (Text.contains sub s); split; congruence.
Qed.

Lemma all_app (f : ascii -> bool) (s t : string) :
  Text.all f (s +:+ t) = Text.all f s && Text.all f t.
Proof.
  induction s as [|c s IH]; [reflexivity|].
  rewrite append_cons. simpl. rewrite IH, andb_assoc. reflexivity.
Qed.

End TextFacts.

(** ** The matcher *)

Section ReFacts.

Lemma pushes_nil (cap : bool) (grp : string) : pushes cap "" grp = grp.
Proof. destruct cap; simpl; [apply append_nil_r | reflexivity]. Qed.

Lemma pushes_cons (cap : bool) (c : ascii) (pre grp : string) :
  pushes cap (String c pre) grp = pushes cap pre (push cap c grp).
Proof.
  destruct cap; simpl; [|reflexivity].
  rewrite append_assoc, append_cons, append_nil_l. reflexivity.
Qed.

Lemma pushes_app (cap : bool) (s t grp : string) :
  pushes cap (s +:+ t) grp = pushes cap t (pushes cap s grp).
Proof. destruct cap; simpl; [|reflexivity]. rewrite append_assoc. reflexivity. Qed.

(** A quantifier that succeeds has consumed a run of accepted characters
    and handed the rest to what follows. *)
Lemma greedy_sound (a : atom) (k : string -> string -> option string) (cap : bool)
    (s grp r : string) :
  greedy a k cap grp s = Some r ->
  exists pre post, s = pre +:+ post /\ Text.all (accepts a) pre = true /\
                   k (pushes cap pre grp) post = Some r.
Proof.
  revert grp. induction s as [|c s IH]; intros grp H; simpl in H.
  - exists "", "". rewrite pushes_nil. auto.
  - destruct (accepts a c) eqn:Hc.
    + destruct (greedy a k cap (push cap c grp) s) as [r'|] eqn:Hg.
      * injection H as <-. destruct (IH _ Hg) as (pre & post & -> & Hall & Hk).
        exists (String c pre), post. rewrite pushes_cons. simpl. rewrite Hc. auto.
      * exists "", (String c s). rewrite pushes_nil. auto.
    + exists "", (String c s). rewrite pushes_nil. auto.
Qed.

Lemma greedy_base (a : atom) (k : string -> string -> option string) (cap : bool)
    (s grp r : string) :
  k grp s = Some r -> exists r', greedy a k cap grp s = Some r'.
Proof.
  intros H. destruct s as [|c s]; simpl; [eauto|].
  destruct (accepts a c); [|eauto].
  destruct (greedy a k cap (push cap c grp) s); eauto.
Qed.

(** If some split lets the continuation succeed, the quantifier succeeds. *)
Lemma greedy_complete (a : atom) (k : string -> string -> option string) (cap : bool)
    (pre post grp r : string) :
  Text.all (accepts a) pre = true ->
  k (pushes cap pre grp) post = Some r ->
  exists r', greedy a k cap grp (pre +:+ post) = Some r'.
Proof.
  revert grp. induction pre as [|c pre IH]; intros grp Hall Hk.
  - rewrite pushes_nil in Hk. rewrite append_nil_l. eapply greedy_base; eauto.
  - simpl in Hall. apply andb_true_iff in Hall as [Hc Hall].
    rewrite pushes_cons in Hk. rewrite append_cons. simpl. rewrite Hc.
    destruct (IH _ Hall Hk) as [r' ->]. eauto.
Qed.

(** The longest split on which the continuation succeeds is the one
    taken. *)
Lemma greedy_longest (a : atom) (k : string -> string -> option string) (cap : bool)
    (pre post grp r : string) :
  Text.all (accepts a) pre = true ->
  k (pushes cap pre grp) post = Some r ->
  (forall more rest, post = more +:+ rest -> more <> "" ->
                     k (pushes cap (pre +:+ more) grp) rest = None) ->
  greedy a k cap grp (pre +:+ post) = Some r.
Proof.
  revert grp. induction pre as [|c pre IH]; intros grp Hall Hk Hlater.
  - rewrite pushes_nil in Hk. rewrite append_nil_l.
    destruct post as [|d post]; simpl; [exact Hk|].
    destruct (accepts a d); [|exact Hk].
    destruct (greedy a k cap (push cap d grp) post) as [r'|] eqn:Hg; [|exact Hk].
    apply greedy_sound in Hg as (more & rest & -> & _ & Hk').
    rewrite <- pushes_cons in Hk'.
    specialize (Hlater (String d more) rest eq_refl ltac:(discriminate)).
    rewrite append_nil_l in Hlater. congruence.
  - simpl in Hall. apply andb_true_iff in Hall as [Hc Hall].
    rewrite pushes_cons in Hk. rewrite append_cons. simpl. rewrite Hc.
    rewrite (IH (push cap c grp) Hall Hk); [reflexivity|].
    intros more rest Hpost Hne. rewrite <- pushes_cons, <- append_cons.
    apply Hlater; assumption.
Qed.

Lemma rmatch_one (a : atom) (p : list item) (cap : bool) (grp s r : string) :
  rmatch (One a :: p) cap grp s = Some r <->
  exists c t, s = String c t /\ accepts a c = true /\
              rmatch p cap (push cap c grp) t = Some r.
Proof.
  simpl. destruct s as [|c t].
  - split; [discriminate | intros (c & t & H & _); discriminate].
  - destruct (accepts a c) eqn:Hc.
    + split; [intros H; exists c, t; auto|].
      intros (c' & t' & H & _ & Hr). injection H as <- <-. exact Hr.
    + split; [discriminate|].
      intros (c' & t' & H & Hc' & _). injection H as <- <-. congruence.
Qed.

Lemma rmatch_lits (w : string) (p : list item) (cap : bool) (grp s r : string) :
  rmatch (lits w ++ p) cap grp s = Some r <->
  exists t, s = w +:+ t /\ rmatch p cap (pushes cap w grp) t = Some r.
Proof.
  revert grp s. induction w as [|c w IH]; intros grp s.
  - rewrite pushes_nil. cbn [lits Text.lits_of map app]. split.
    + intros H. exists s. auto.
    + intros (t & -> & H). exact H.
  - change (lits (String c w) ++ p) with (One (Lit c) :: (lits w ++ p)).
    rewrite rmatch_one. split.
    + intros (d & t & -> & Hd & H). simpl in Hd. apply Ascii.eqb_eq in Hd as ->.
      apply IH in H as (t' & -> & H). exists t'. rewrite pushes_cons. auto.
    + intros (t & -> & H). exists c, (w +:+ t). rewrite pushes_cons in H.
      split; [reflexivity|]. split; [simpl; apply Ascii.eqb_refl|].
      apply IH. eauto.
Qed.

(** A trailing [.*] never fails and leaves a closed group as it is. *)
Lemma greedy_tail (a : atom) (grp s : string) :
  greedy a (rmatch [] false) false grp s = Some grp.
Proof.
  revert grp. induction s as [|c s IH]; intros grp; simpl; [reflexivity|].
  destruct (accepts a c); [|reflexivity]. rewrite IH. reflexivity.
Qed.

End ReFacts.

(** ** Version extraction *)

Section VersionFacts.

Lemma version_pattern_eq : version_pattern = Star Dot :: version_tail.
Proof. reflexivity. Qed.

(** What follows the leading [.*] matches exactly the texts that begin
    with a segment, and the group is its year. *)
Lemma version_tail_spec (grp s r : string) :
  rmatch version_tail false grp s = Some r <->
  is_year r /\ exists post, s = segment r +:+ post.
Proof.
  unfold version_tail, segment. split.
  - intros H. apply rmatch_lits in H as (t & -> & H).
    cbn [app rmatch] in H.
    apply rmatch_lits in H as (t2 & -> & H).
    cbn [app] in H.
    apply rmatch_one in H as (c1 & t3 & -> & Hc1 & H).
    apply rmatch_one in H as (c2 & t4 & -> & Hc2 & H).
    cbn [rmatch] in H.
    apply rmatch_lits in H as (t5 & -> & H).
    cbn [rmatch pushes] in H. rewrite greedy_tail in H. injection H as <-.
    split.
    + exists c1, c2. auto.
    + exists t5. reflexivity.
  - intros [(c1 & c2 & -> & Hc1 & Hc2) [post ->]].
    rewrite !append_assoc.
    apply rmatch_lits. eexists. split; [reflexivity|].
    cbn [app rmatch].
    change (String "2" (String "0" (String c1 (String c2 ""))) +:+ "/" +:+ post)
      with ("20" +:+ String c1 (String c2 ("/" +:+ post))).
    apply rmatch_lits. eexists. split; [reflexivity|].
    cbn [app].
    apply rmatch_one. exists c1, (String c2 ("/" +:+ post)).
    split; [reflexivity|]. split; [exact Hc1|].
    apply rmatch_one. exists c2, ("/" +:+ post).
    split; [reflexivity|]. split; [exact Hc2|].
    cbn [rmatch].
    apply rmatch_lits. eexists. split; [reflexivity|].
    cbn [rmatch pushes]. rewrite greedy_tail. reflexivity.
Qed.

Lemma match_version_sound (u y : string) :
  match_group version_pattern u = Some y -> has_segment y u.
Proof.
  unfold match_group. rewrite version_pattern_eq. cbn [rmatch]. intros H.
  apply greedy_sound in H as (pre & post & -> & _ & H).
  apply version_tail_spec in H as [Hy [post' ->]].
  split; [exact Hy|]. exists pre, post'. reflexivity.
Qed.

Lemma no_newline_app (s t : string) :
  no_newline (s +:+ t) <-> no_newline s /\ no_newline t.
Proof. unfold no_newline. rewrite all_app, andb_true_iff. reflexivity. Qed.

Lemma match_version_complete (u y : string) :
  no_newline u -> has_segment y u ->
  exists y', match_group version_pattern u = Some y'.
Proof.
  intros Hnl [Hy (pre & post & ->)].
  apply no_newline_app in Hnl as [Hpre _].
  unfold match_group. rewrite version_pattern_eq. cbn [rmatch].
  eapply greedy_complete; [exact Hpre|].
  apply version_tail_spec. split; [exact Hy|]. exists post. reflexivity.
Qed.

Lemma match_version_last (u y : string) :
  no_newline u -> last_segment y u ->
  match_group version_pattern u = Some y.
Proof.
  intros Hnl [Hy (pre & post & -> & Hlast)].
  apply no_newline_app in Hnl as [Hpre _].
  unfold match_group. rewrite version_pattern_eq. cbn [rmatch].
  apply greedy_longest; [exact Hpre| |].
  - apply version_tail_spec. split; [exact Hy|]. exists post. reflexivity.
  - intros more rest Heq Hne.
    destruct (rmatch version_tail false (pushes false (pre +:+ more) "") rest)
      as [y'|] eqn:Hm; [exfalso|reflexivity].
    apply version_tail_spec in Hm as [Hy' [post' ->]].
    destruct more as [|c more]; [congruence|].
    unfold segment in Heq at 1. rewrite !append_assoc in Heq.
    change (String "/" ("devkit+" +:+ y +:+ "/" +:+ post) =
            String c (more +:+ segment y' +:+ post')) in Heq.
    injection Heq as _ Heq.
    apply (Hlast y' Hy'). exists more, post'. rewrite Heq. reflexivity.
Qed.

(** [replace] leaves line feeds alone. *)
Lemma replace_no_newline_len (n : nat) (s : string) :
  (String.length s <= n)%nat -> no_newline s -> no_newline (Text.replace_pct20 s).
Proof.
  revert s. induction n as [|n IH]; intros s Hlen Hs.
  - destruct s; [reflexivity | simpl in Hlen; lia].
  - destruct s as [|c s]; [reflexivity|].
    unfold no_newline in *. simpl in Hs. apply andb_true_iff in Hs as [Hc Hs].
    assert (Hdef : Text.all (accepts Dot) (String c (Text.replace_pct20 s)) = true).
    { simpl. rewrite Hc. apply IH; [simpl in Hlen; lia | exact Hs]. }
    destruct s as [|d [|e s]]; [exact Hdef | exact Hdef |].
    cbn [Text.replace_pct20].
    destruct (Ascii.eqb c "%" && Ascii.eqb d "2" && Ascii.eqb e "0"); [|exact Hdef].
    simpl in Hs. apply andb_true_iff in Hs as [_ Hs].
    apply andb_true_iff in Hs as [_ Hs].
    cbn [Text.all]. apply IH; [simpl in Hlen; lia | exact Hs].
Qed.

Lemma replace_no_newline (s : string) :
  no_newline s -> no_newline (Text.replace_pct20 s).
Proof. apply (replace_no_newline_len (String.length s)). lia. Qed.

End VersionFacts.

(** C5. After every [%20] has become [+], the version parser returns a
    year only if the text has a segment [/devkit+YYYY/] with [YYYY] of the
    form [20[12][0-9]]; on a URL (a text without line feed) that has such a
    segment it returns a year, namely the year of the last such segment;
    and with no such segment it fails (raises). *)
Theorem parse_maya_version_spec (url : string) :
  (forall y, parse_maya_version url = Some y ->
             has_segment y (Text.replace_pct20 url)) /\
  (forall y, no_newline url -> has_segment y (Text.replace_pct20 url) ->
             exists y', parse_maya_version url = Some y' /\
                        has_segment y' (Text.replace_pct20 url)) /\
  (forall y, no_newline url -> last_segment y (Text.replace_pct20 url) ->
             parse_maya_version url = Some y) /\
  ((forall y, ~ has_segment y (Text.replace_pct20 url)) ->
   parse_maya_version url = None).
Proof.
  unfold parse_maya_version. repeat split.
  - apply (match_version_sound _ y H).
  - apply (match_version_sound _ y H).
  - intros y Hnl Hseg. apply replace_no_newline in Hnl.
    destruct (match_version_complete _ _ Hnl Hseg) as [y' Hy'].
    exists y'. split; [exact Hy'|]. apply match_version_sound. exact Hy'.
  - intros y Hnl Hlast. apply match_version_last; [|exact Hlast].
    apply replace_no_newline. exact Hnl.
  - intros Hnone.
    destruct (match_group version_pattern (Text.replace_pct20 url)) as [y|] eqn:H;
      [|reflexivity].
    exfalso. apply (Hnone y). apply match_version_sound. exact H.
Qed.

Lemma mem_In (c : ascii) (cs : string) :
  Text.mem c cs = true -> In c (Text.lits_of cs).
Proof.
  induction cs as [|d cs IH]; simpl; [discriminate|].
  intros H. apply orb_true_iff in H as [H|H].
  - left. apply Ascii.eqb_eq in H. congruence.
  - right. apply IH, H.
Qed.

Lemma is_year_cases (y : string) :
  is_year y ->
  In y ["2010"; "2011"; "2012"; "2013"; "2014"; "2015"; "2016"; "2017"; "2018"; "2019";
        "2020"; "2021"; "2022"; "2023"; "2024"; "2025"; "2026"; "2027"; "2028"; "2029"].
Proof.
  intros (c1 & c2 & -> & H1 & H2).
  apply mem_In in H1. apply mem_In in H2. simpl in H1, H2.
  repeat (destruct H1 as [<-|H1]); try contradiction;
    repeat (destruct H2 as [<-|H2]); try contradiction; simpl; tauto.
Qed.

Lemma parse_maya_version_spec_witness :
  parse_maya_version (U "devkit%202020/Autodesk_Maya_2020_DEVKIT_Windows.zip")
  = Some "2020".
Proof.
  destruct (parse_maya_version_spec
              (U "devkit%202020/Autodesk_Maya_2020_DEVKIT_Windows.zip"))
    as (_ & _ & H & _).
  apply H.
  - vm_compute. reflexivity.
  - split.
    + exists "2"%char, "0"%char. repeat split; reflexivity.
    + exists "https://autodesk-adn-transfer.s3-us-west-2.amazonaws.com/ADN+Extranet/M%26E/Maya",
             "Autodesk_Maya_2020_DEVKIT_Windows.zip".
      split; [vm_compute; reflexivity|].
      intros y' Hy'. apply contains_false.
      apply is_year_cases in Hy'. simpl in Hy'.
      repeat (destruct Hy' as [<-|Hy']; [vm_compute; reflexivity|]).
      contradiction.
Defined.

(** ** Platform and update number *)

Section BasenameFacts.

Lemma contains_slash_cons (c : ascii) (s : string) :
  Text.contains "/" (String c s) = Ascii.eqb "/" c || Text.contains "/" s.
Proof. simpl. rewrite andb_true_r. reflexivity. Qed.

Lemma basename_no_slash (b : string) :
  Text.contains "/" b = false -> Text.basename b = b.
Proof. intros H. destruct b as [|c b]; [reflexivity|].
  cbn [Text.basename]. rewrite H. reflexivity.
Qed.

(** The base name is what follows the last slash. *)
Lemma basename_spec (pre b : string) :
  ~ occurs "/" b -> Text.basename (pre +:+ "/" +:+ b) = b.
Proof.
  intros Hb. apply contains_false in Hb.
  induction pre as [|c pre IH].
  - change ("" +:+ "/" +:+ b) with (String "/" b).
    cbn [Text.basename]. rewrite contains_slash_cons. simpl.
    apply basename_no_slash, Hb.
  - rewrite append_cons. cbn [Text.basename].
    replace (Text.contains "/" (String c (pre +:+ "/" +:+ b))) with true; [exact IH|].
    symmetry. apply contains_spec. exists (String c pre), b. reflexivity.
Qed.

End BasenameFacts.

(** C7. The platform parser works on the lower-cased base name of the URL
    and answers [Windows] when [windows] occurs in it, else [Linux] when
    [linux] occurs, else [Mac] when [macos] or [mac] occurs, and otherwise
    nothing (it never fails). *)
Theorem parse_platform_spec (url : string) :
  let b := Text.lower (Text.basename url) in
  (parse_platform url = Some "Windows" <-> occurs "windows" b) /\
  (parse_platform url = Some "Linux" <->
     ~ occurs "windows" b /\ occurs "linux" b) /\
  (parse_platform url = Some "Mac" <->
     ~ occurs "windows" b /\ ~ occurs "linux" b /\
     (occurs "macos" b \/ occurs "mac" b)) /\
  (parse_platform url = None <->
     ~ occurs "windows" b /\ ~ occurs "linux" b /\
     ~ occurs "macos" b /\ ~ occurs "mac" b).
Proof.
  intros b. unfold parse_platform. fold b.
  rewrite <- !contains_false, <- !contains_spec.
  destruct (Text.contains "windows" b), (Text.contains "linux" b),
    (Text.contains "macos" b), (Text.contains "mac" b); simpl;
    repeat split; intros; try discriminate; try congruence;
    repeat match goal with
           | H : _ /\ _ |- _ => destruct H
           | H : _ \/ _ |- _ => destruct H
           end; try discriminate; try congruence; auto.
Qed.

Lemma parse_platform_spec_witness :
  parse_platform (U "devkit+2020/Autodesk_Maya_2020_DEVKIT_WINDOWS_linux.zip")
  = Some "Windows".
Proof.
  apply (proj1 (parse_platform_spec
                  (U "devkit+2020/Autodesk_Maya_2020_DEVKIT_WINDOWS_linux.zip"))).
  exists "autodesk_maya_2020_devkit_", "_linux.zip". vm_compute. reflexivity.
Defined.

Section UpdateFacts.

Lemma lookup_prefix_none (tbl : list (string * Z)) (b : string) :
  (forall p n, In (p, n) tbl -> ~ starts p b) -> lookup_prefix tbl b = None.
Proof.
  induction tbl as [|[p n] tbl IH]; intros H; [reflexivity|].
  simpl. destruct (Text.startswith p b) eqn:Hp.
  - exfalso. apply (H p n); [left; reflexivity | apply startswith_spec; exact Hp].
  - apply IH. intros p' n' Hin. apply (H p' n'). right. exact Hin.
Qed.

(** No base name starts with two entries of the table, so the order in
    which the dictionary is walked does not matter. *)
Lemma lookup_prefix_entry (ver b p : string) (n : Z) :
  In (p, n) (chaotic ver) -> starts p b -> lookup_prefix (chaotic ver) b = Some n.
Proof.
  unfold chaotic. intros Hin [t ->].
  destruct (String.eqb ver "2016"); [|destruct (String.eqb ver "2017");
    [|destruct (String.eqb ver "2018")]]; simpl in Hin;
    repeat (destruct Hin as [Hin|Hin]; [injection Hin as <- <-; reflexivity|]);
    contradiction.
Qed.

Lemma not_starts (p b : string) : ~ starts p b -> Text.startswith p b = false.
Proof.
  intros H. destruct (Text.startswith p b) eqn:E; [|reflexivity].
  exfalso. apply H, startswith_spec, E.
Qed.

Lemma first_update_none (ver b : string) (range : list Z) :
  (forall d, In d range -> ~ starts (update_prefix ver d) b) ->
  first_update ver b range = None.
Proof.
  induction range as [|i range IH]; intros H; [reflexivity|].
  cbn [first_update]. rewrite not_starts; [|apply H; left; reflexivity].
  apply IH. intros d Hd. apply H. right. exact Hd.
Qed.

Lemma first_update_first (ver b : string) (before after : list Z) (d : Z) :
  (forall d', In d' before -> ~ starts (update_prefix ver d') b) ->
  starts (update_prefix ver d) b ->
  first_update ver b (before ++ d :: after) = Some d.
Proof.
  induction before as [|i before IH]; intros H Hd; cbn [app first_update].
  - apply startswith_spec in Hd. rewrite Hd. reflexivity.
  - rewrite not_starts; [|apply H; left; reflexivity].
    apply IH; [|exact Hd]. intros d' Hd'. apply H. right. exact Hd'.
Qed.

Lemma range_split (d : Z) :
  1 <= d <= 9 ->
  exists before after, range_1_10 = before ++ d :: after /\
                       forall d', In d' before -> 1 <= d' < d.
Proof.
  intros H.
  assert (Hd : d = 1 \/ d = 2 \/ d = 3 \/ d = 4 \/ d = 5 \/ d = 6 \/ d = 7 \/
               d = 8 \/ d = 9) by lia.
  unfold range_1_10.
  repeat destruct Hd as [->|Hd]; [ exists [] | exists [1] | exists [1;2] | exists [1;2;3]
    | exists [1;2;3;4] | exists [1;2;3;4;5] | exists [1;2;3;4;5;6]
    | exists [1;2;3;4;5;6;7] | subst d; exists [1;2;3;4;5;6;7;8] ];
    eexists; (split; [reflexivity|]); simpl; intros d' Hd'; lia.
Qed.

Lemma range_In (d : Z) : In d range_1_10 -> 1 <= d <= 9.
Proof. unfold range_1_10. simpl. lia. Qed.

End UpdateFacts.

(** C2. The update number of a base name is found in three tiers, in this
    order: an entry of the table of irregular names (which exists only for
    2016, 2017 and 2018) whose prefix starts the base name gives its
    number; otherwise the prefix [Autodesk_Maya_<version>_DEVKIT] gives 0;
    otherwise the first [d] of 1..9 whose prefix
    [Autodesk_Maya_<version>_<d>_Update_DEVKIT] starts the base name gives
    [d]; and when nothing matches the parser raises. *)
Theorem parse_update_version_spec (url ver : string) :
  let b := Text.basename url in
  let untabulated := forall p n, In (p, n) (chaotic ver) -> ~ starts p b in
  (ver <> "2016" -> ver <> "2017" -> ver <> "2018" -> chaotic ver = []) /\
  (forall p n, In (p, n) (chaotic ver) -> starts p b ->
               parse_update_version url ver = Ok n) /\
  (untabulated -> starts (generic_prefix ver) b ->
   parse_update_version url ver = Ok 0) /\
  (forall d, untabulated -> ~ starts (generic_prefix ver) b ->
             1 <= d <= 9 -> starts (update_prefix ver d) b ->
             (forall d', 1 <= d' < d -> ~ starts (update_prefix ver d') b) ->
             parse_update_version url ver = Ok d) /\
  (untabulated -> ~ starts (generic_prefix ver) b ->
   (forall d, 1 <= d <= 9 -> ~ starts (update_prefix ver d) b) ->
   parse_update_version url ver = Raise (CannotParseUpdate b)).
Proof.
  intros b untabulated. unfold parse_update_version, update_of_base. fold b.
  repeat split.
  - intros H6 H7 H8. unfold chaotic.
    apply String.eqb_neq in H6, H7, H8. rewrite H6, H7, H8. reflexivity.
  - intros p n Hin Hp. rewrite (lookup_prefix_entry ver b p n Hin Hp). reflexivity.
  - intros Hun Hgen. rewrite (lookup_prefix_none _ _ Hun).
    apply startswith_spec in Hgen. rewrite Hgen. reflexivity.
  - intros d Hun Hgen Hd Hstarts Hfirst. rewrite (lookup_prefix_none _ _ Hun).
    rewrite (not_starts _ _ Hgen).
    destruct (range_split d Hd) as (before & after & -> & Hbefore).
    rewrite (first_update_first ver b before after d); [reflexivity| |exact Hstarts].
    intros d' Hd'. apply Hfirst, Hbefore, Hd'.
  - intros Hun Hgen Hnone. rewrite (lookup_prefix_none _ _ Hun).
    rewrite (not_starts _ _ Hgen).
    rewrite first_update_none; [reflexivity|].
    intros d Hd. apply Hnone, range_In, Hd.
Qed.

Lemma starts_false (p b : string) : Text.startswith p b = false -> ~ starts p b.
Proof. intros H Hs. apply startswith_spec in Hs. congruence. Qed.

Lemma parse_update_version_spec_witness :
  parse_update_version (U "devkit+2016/Maya2016ext2_DEVKIT_Windows.zip") "2016" = Ok 2 /\
  parse_update_version (U "devkit+2017/Maya2017u4_DEVKIT_Linux.tgz") "2017" = Ok 4 /\
  parse_update_version (U "devkit+2018/Maya2018-DEVKIT_Mac.dmg") "2018" = Ok 0 /\
  parse_update_version (U "devkit+2020/Autodesk_Maya_2020_DEVKIT_Mac.dmg") "2020" = Ok 0 /\
  parse_update_version (U "devkit+2020/Autodesk_Maya_2020_3_Update_DEVKIT_Linux.tgz") "2020"
  = Ok 3.
Proof.
  refine (conj _ (conj _ (conj _ (conj _ _)))).
  - destruct (parse_update_version_spec
                (U "devkit+2016/Maya2016ext2_DEVKIT_Windows.zip") "2016")
      as (_ & H & _).
    apply (H "Maya2016ext2_DEVKIT" 2); [simpl; tauto|].
    exists "_Windows.zip". vm_compute. reflexivity.
  - destruct (parse_update_version_spec
                (U "devkit+2017/Maya2017u4_DEVKIT_Linux.tgz") "2017")
      as (_ & H & _).
    apply (H "Maya2017u4_DEVKIT" 4); [simpl; tauto|].
    exists "_Linux.tgz". vm_compute. reflexivity.
  - destruct (parse_update_version_spec
                (U "devkit+2018/Maya2018-DEVKIT_Mac.dmg") "2018")
      as (_ & H & _).
    apply (H "Maya2018-DEVKIT" 0); [simpl; tauto|].
    exists "_Mac.dmg". vm_compute. reflexivity.
  - destruct (parse_update_version_spec
                (U "devkit+2020/Autodesk_Maya_2020_DEVKIT_Mac.dmg") "2020")
      as (_ & _ & H & _).
    apply H.
    + intros p n Hin. vm_compute in Hin. contradiction.
    + exists "_Mac.dmg". vm_compute. reflexivity.
  - destruct (parse_update_version_spec
                (U "devkit+2020/Autodesk_Maya_2020_3_Update_DEVKIT_Linux.tgz") "2020")
      as (_ & _ & _ & H & _).
    apply H.
    + intros p n Hin. vm_compute in Hin. contradiction.
    + apply starts_false. vm_compute. reflexivity.
    + lia.
    + exists "_Linux.tgz". vm_compute. reflexivity.
    + intros d' Hd'. assert (Hc : d' = 1 \/ d' = 2) by lia.
      destruct Hc as [->| ->]; apply starts_false; vm_compute; reflexivity.
Defined.

(** ** The filter *)

Section FilterFacts.

Variables (major : string) (update : Z) (platform_ : string).

Lemma skip_major (ver : string) :
  nonempty major && negb (String.eqb major ver) = false <->
  major = "" \/ major = ver.
Proof.
  unfold nonempty.
  destruct (String.eqb_spec major ""), (String.eqb_spec major ver); simpl;
    split; intros H; try discriminate; auto; destruct H; congruence.
Qed.

Lemma skip_update (n : Z) :
  (0 <=? update) && negb (update =? n) = false <-> update < 0 \/ update = n.
Proof.
  destruct (Z.leb_spec 0 update), (Z.eqb_spec update n); simpl;
    split; intros Hx; try discriminate; auto; try lia; destruct Hx; congruence || lia.
Qed.

Lemma skip_platform (url : string) :
  nonempty platform_ && negb (same_platform platform_ (parse_platform url)) = false <->
  platform_ = "" \/ parse_platform url = Some platform_.
Proof.
  unfold nonempty, same_platform.
  destruct (String.eqb_spec platform_ ""); simpl; [tauto|].
  destruct (parse_platform url) as [l|]; simpl.
  - destruct (String.eqb_spec platform_ l); simpl; split; intros H;
      try discriminate; auto; [right; congruence | destruct H; congruence].
  - split; intros H; [discriminate | destruct H; congruence].
Qed.

(** One turn of the loop: the metadata of the link is computed (or the
    loop raises), and the candidate is appended exactly when it passes. *)
Lemma collect_cons (r : string) (rest : list string) :
  collect major update platform_ (r :: rest) =
  try c <- meta r in
  if decide (passes major update platform_ c) then
    try found <- collect major update platform_ rest in Ok (c :: found)
  else collect major update platform_ rest.
Proof.
  cbn [collect]. unfold meta.
  destruct (version_of r) as [ver|e]; [|reflexivity]. cbn [rbind].
  destruct (parse_update_version r ver) as [n|e]; [|reflexivity]. cbn [rbind].
  pose proof (skip_major ver) as Hm. pose proof (skip_update n) as Hu.
  pose proof (skip_platform r) as Hp.
  destruct (decide (passes major update platform_ (r, ver, n))) as [Hpass|Hfail].
  - destruct Hpass as (H1 & H2 & H3). cbn in H1, H2, H3.
    apply Hm in H1. apply Hu in H2. apply Hp in H3.
    rewrite H1, H2, H3. reflexivity.
  - destruct (nonempty major && negb (String.eqb major ver)); [reflexivity|].
    destruct ((0 <=? update) && negb (update =? n)); [reflexivity|].
    destruct (nonempty platform_ &&
              negb (same_platform platform_ (parse_platform r))); [reflexivity|].
    exfalso. apply Hfail. unfold passes. cbn. tauto.
Qed.

Lemma collect_metas (url_list : list string) (cands : list candidate) :
  metas url_list = Ok cands ->
  collect major update platform_ url_list =
  Ok (filter (passes major update platform_) cands).
Proof.
  revert cands. induction url_list as [|r rest IH]; intros cands H.
  - injection H as <-. reflexivity.
  - rewrite collect_cons. cbn [metas] in H.
    destruct (meta r) as [c|e]; [|discriminate]. cbn [rbind] in *.
    destruct (metas rest) as [cs|e]; [|discriminate]. cbn [rbind] in H.
    injection H as <-. rewrite (IH cs eq_refl), filter_cons.
    destruct (decide (passes major update platform_ c)); reflexivity.
Qed.

Lemma collect_raises (url_list : list string) (e : exn) :
  metas url_list = Raise e ->
  collect major update platform_ url_list = Raise e.
Proof.
  induction url_list as [|r rest IH]; intros H; [discriminate|].
  rewrite collect_cons. cbn [metas] in H.
  destruct (meta r) as [c|e']; [|exact H]. cbn [rbind] in *.
  destruct (metas rest) as [cs|e']; [discriminate|]. cbn [rbind] in H.
  rewrite (IH H). destruct (decide (passes major update platform_ c)); reflexivity.
Qed.

Lemma meta_url (r : string) (c : candidate) : meta r = Ok c -> url_of c = r.
Proof.
  unfold meta. destruct (version_of r) as [v|]; [|discriminate]. cbn [rbind].
  destruct (parse_update_version r v) as [n|]; [|discriminate]. cbn [rbind].
  intros H. injection H as <-. reflexivity.
Qed.

(** What the loop returns are links with their own metadata that pass. *)
Lemma collect_sound (url_list : list string) (found : list candidate) :
  collect major update platform_ url_list = Ok found ->
  Forall (fun c => meta (url_of c) = Ok c /\ passes major update platform_ c) found.
Proof.
  revert found. induction url_list as [|r rest IH]; intros found H.
  - injection H as <-. constructor.
  - rewrite collect_cons in H.
    destruct (meta r) as [c|e] eqn:Hc; [|discriminate]. cbn [rbind] in H.
    destruct (decide (passes major update platform_ c)) as [Hpass|]; [|auto].
    destruct (collect major update platform_ rest) as [f|e]; [|discriminate].
    cbn [rbind] in H. injection H as <-.
    constructor; [|auto]. split; [|exact Hpass].
    rewrite (meta_url _ _ Hc). exact Hc.
Qed.

Lemma collect_fixed (found : list candidate) :
  Forall (fun c => meta (url_of c) = Ok c /\ passes major update platform_ c) found ->
  collect major update platform_ (map url_of found) = Ok found.
Proof.
  induction 1 as [|c found [Hc Hpass] _ IH]; [reflexivity|].
  cbn [map]. rewrite collect_cons, Hc. cbn [rbind].
  destruct (decide (passes major update platform_ c)); [|contradiction].
  rewrite IH. reflexivity.
Qed.

End FilterFacts.

Lemma filter_links_unfold (maya platform_ : string) (url_list : list string) :
  filter_links maya platform_ url_list =
  try update <- update_of_spec (snd (split_spec maya)) in
  collect (fst (split_spec maya)) update platform_ url_list.
Proof. unfold filter_links. destruct (split_spec maya). reflexivity. Qed.

(** A specifier whose update part is no integer literal, and a link whose
    version or update number cannot be parsed, make the filter raise. *)
Lemma filter_links_raises (maya platform_ : string) (url_list : list string) :
  (update_of_spec (snd (split_spec maya)) = Raise ValueError ->
   filter_links maya platform_ url_list = Raise ValueError) /\
  (forall update e, update_of_spec (snd (split_spec maya)) = Ok update ->
                    metas url_list = Raise e ->
                    filter_links maya platform_ url_list = Raise e).
Proof.
  rewrite filter_links_unfold. split.
  - intros ->. reflexivity.
  - intros update e -> H. cbn [rbind]. apply collect_raises, H.
Qed.

(** C1 (amended). For links whose version and update number all parse and
    a specifier whose update part can be read, the filter returns, in the
    order of the links, exactly the candidates such that the major part is
    empty or equal to the parsed version, AND the number read from the
    update part is negative or equal to the parsed update number, AND the
    platform specifier is empty or equal to the parsed platform label.  The
    number read is -1 for the wild card, 0 for an absent part and the value
    of the integer literal otherwise, so the wild card and every negative
    literal accept all updates.  In particular [2020.*] with an empty
    platform keeps exactly the candidates of version 2020, and [2018] keeps
    exactly those of version 2018 and update number 0. *)
Theorem filter_links_spec (maya platform_ : string) (url_list : list string)
    (cands : list candidate) (update : Z) :
  metas url_list = Ok cands ->
  update_of_spec (snd (split_spec maya)) = Ok update ->
  filter_links maya platform_ url_list =
    Ok (filter (passes (fst (split_spec maya)) update platform_) cands) /\
  (snd (split_spec maya) = "*" -> update = -1) /\
  (snd (split_spec maya) = "" -> update = 0) /\
  (snd (split_spec maya) <> "*" -> snd (split_spec maya) <> "" ->
   PyInt.int (snd (split_spec maya)) = Some update) /\
  filter_links "2020.*" "" url_list =
    Ok (filter (fun c => version_in c = "2020") cands) /\
  filter_links "2018" "" url_list =
    Ok (filter (fun c => version_in c = "2018" /\ update_in c = 0) cands).
Proof.
  intros Hm Hu. split; [|split; [|split; [|split; [|split]]]].
  - rewrite filter_links_unfold, Hu. cbn [rbind]. apply collect_metas, Hm.
  - intros E. rewrite E in Hu. cbn in Hu. congruence.
  - intros E. rewrite E in Hu. cbn in Hu. congruence.
  - intros H1 H2. unfold update_of_spec in Hu.
    apply String.eqb_neq in H1, H2. rewrite H1, H2 in Hu.
    destruct (PyInt.int (snd (split_spec maya))); congruence.
  - rewrite filter_links_unfold.
    change (update_of_spec (snd (split_spec "2020.*"))) with (@Ok Z (-1)).
    cbn [rbind]. rewrite (collect_metas _ _ _ _ _ Hm).
    f_equal. apply list_filter_iff. intros c. unfold passes.
    change (fst (split_spec "2020.*")) with "2020".
    split; [intros ([H| ->] & _); [discriminate|reflexivity]|].
    intros ->. repeat split; auto. left. lia.
  - rewrite filter_links_unfold.
    change (update_of_spec (snd (split_spec "2018"))) with (@Ok Z 0).
    cbn [rbind]. rewrite (collect_metas _ _ _ _ _ Hm).
    f_equal. apply list_filter_iff. intros c. unfold passes.
    change (fst (split_spec "2018")) with "2018".
    split.
    + intros ([H| ->] & [H2| <-] & _); try discriminate; try lia; auto.
    + intros [-> <-]. repeat split; auto.
Qed.

Lemma filter_links_spec_witness :
  filter_links "2020.1" "Windows" [link_2020_0_linux; link_2020_1_windows; link_2018_0_mac]
  = Ok (filter (passes "2020" 1 "Windows")
          [(link_2020_0_linux, "2020", 0); (link_2020_1_windows, "2020", 1);
           (link_2018_0_mac, "2018", 0)]).
Proof.
  apply (filter_links_spec "2020.1" "Windows"
           [link_2020_0_linux; link_2020_1_windows; link_2018_0_mac]
           [(link_2020_0_linux, "2020", 0); (link_2020_1_windows, "2020", 1);
            (link_2018_0_mac, "2018", 0)] 1).
  - vm_compute. reflexivity.
  - vm_compute. reflexivity.
Defined.

(** C1, as stated, fails: with the update part [-1] the filter keeps a
    candidate of update number 1, although that part is neither the wild
    card nor a literal of value 1. *)
Lemma filter_links_negative_update :
  filter_links "2020.-1" "" [link_2020_1_windows] = Ok [(link_2020_1_windows, "2020", 1)] /\
  ~ claimed_passes "2020.-1" "" (link_2020_1_windows, "2020", 1).
Proof.
  split; [vm_compute; reflexivity|].
  intros (_ & H & _). vm_compute in H. destruct H as [H|H]; discriminate.
Qed.

(** C9. Filtering the links of an already filtered list with the same
    specifiers gives the same list again. *)
Theorem filter_links_idempotent (maya platform_ : string) (url_list : list string)
    (found : list candidate) :
  filter_links maya platform_ url_list = Ok found ->
  filter_links maya platform_ (map url_of found) = Ok found.
Proof.
  rewrite !filter_links_unfold.
  destruct (update_of_spec (snd (split_spec maya))) as [update|e]; [|discriminate].
  cbn [rbind]. intros H. apply collect_fixed. eapply collect_sound. exact H.
Qed.

Lemma filter_links_idempotent_witness :
  filter_links "2018.*" "" (map url_of [(link_2018_0_mac, "2018", 0);
                                        (link_2018_4_windows, "2018", 4)])
  = Ok [(link_2018_0_mac, "2018", 0); (link_2018_4_windows, "2018", 4)].
Proof.
  apply (filter_links_idempotent "2018.*" ""
           [link_2020_0_linux; link_2018_0_mac; link_2020_1_windows; link_2018_4_windows]).
  vm_compute. reflexivity.
Defined.

(** ** The link extractor *)

Section LinkFacts.

Lemma accepted_not_newline (a : atom) (c : ascii) :
  accepts a newline = false -> accepts a c = true -> accepts Dot c = true.
Proof.
  intros Hn Hc. simpl. destruct (Ascii.eqb_spec c newline) as [->|]; [congruence|reflexivity].
Qed.

Lemma push_no_newline (a : atom) (cap : bool) (c : ascii) (grp : string) :
  accepts a newline = false -> accepts a c = true ->
  no_newline grp -> no_newline (push cap c grp).
Proof.
  intros Hn Hc Hg. destruct cap; [|exact Hg]. unfold push.
  apply no_newline_app. split; [exact Hg|].
  unfold no_newline. cbn [Text.all].
  rewrite (accepted_not_newline a c Hn Hc). reflexivity.
Qed.

Lemma greedy_no_newline (a : atom) (k : string -> string -> option string)
    (cap : bool) (s grp r : string) :
  accepts a newline = false ->
  (forall g t, no_newline g -> k g t = Some r -> no_newline r) ->
  no_newline grp -> greedy a k cap grp s = Some r -> no_newline r.
Proof.
  intros Hn Hk. revert grp. induction s as [|c s IH]; intros grp Hg H; simpl in H.
  - eapply Hk; eauto.
  - destruct (accepts a c) eqn:Hc; [|eapply Hk; eauto].
    destruct (greedy a k cap (push cap c grp) s) as [r'|] eqn:E; [|eapply Hk; eauto].
    injection H as <-. eapply IH; [|exact E]. eapply push_no_newline; eauto.
Qed.

(** A pattern none of whose items takes a line feed captures a group
    without line feed. *)
Lemma rmatch_no_newline (p : list item) (cap : bool) (grp s r : string) :
  forallb newline_free p = true -> no_newline grp ->
  rmatch p cap grp s = Some r -> no_newline r.
Proof.
  revert cap grp s. induction p as [|i p IH]; intros cap grp s Hp Hg H.
  - injection H as <-. exact Hg.
  - cbn [forallb] in Hp. apply andb_true_iff in Hp as [Hi Hp].
    destruct i as [a|a|a| |]; cbn [rmatch] in H; cbn [newline_free] in Hi;
      try apply negb_true_iff in Hi.
    + destruct s as [|c s]; [discriminate|].
      destruct (accepts a c) eqn:Hc; [|discriminate].
      eapply IH; [exact Hp| |exact H]. eapply push_no_newline; eauto.
    + eapply (greedy_no_newline a); [exact Hi| |exact Hg|exact H].
      intros g t Hg' Hk. eapply IH; eauto.
    + destruct s as [|c s]; [discriminate|].
      destruct (accepts a c) eqn:Hc; [|discriminate].
      eapply (greedy_no_newline a); [exact Hi| | |exact H].
      * intros g t Hg' Hk. eapply IH; eauto.
      * eapply push_no_newline; eauto.
    + eapply IH; [exact Hp| |exact H]. reflexivity.
    + eapply IH; eauto.
Qed.

Lemma link_no_newline (ln u : string) :
  match_group links_pattern ln = Some u -> no_newline u.
Proof.
  apply rmatch_no_newline; [vm_compute|]; reflexivity.
Qed.

Lemma decode_eq (g u : string) : Utf8.decode g = Some u -> u = g.
Proof. unfold Utf8.decode. destruct (Utf8.valid g); congruence. Qed.

(** Every link returned is the group of a line of the page. *)
Lemma parse_links_In (lines urls : list string) (u : string) :
  parse_links lines = Some urls -> In u urls ->
  exists ln, In ln lines /\ match_group links_pattern ln = Some u.
Proof.
  revert urls. induction lines as [|ln rest IH]; intros urls H Hu; cbn [parse_links] in H.
  - injection H as <-. contradiction.
  - destruct (match_group links_pattern ln) as [g|] eqn:Hg.
    + destruct (Utf8.decode g) as [u'|] eqn:Hd; [|discriminate].
      destruct (parse_links rest) as [us|]; [|discriminate].
      injection H as <-. apply decode_eq in Hd as ->.
      destruct Hu as [<-|Hu].
      * exists ln. split; [left; reflexivity|exact Hg].
      * destruct (IH us eq_refl Hu) as (ln' & Hin & Hm).
        exists ln'. split; [right; exact Hin|exact Hm].
    + destruct (IH urls H Hu) as (ln' & Hin & Hm).
      exists ln'. split; [right; exact Hin|exact Hm].
Qed.

End LinkFacts.

(** C3. The link extractor returns a link that ends in none of the archive
    extensions: the bracket of the pattern is a class of single
    characters, so any link whose last character is one of
    [. d m g z i p t] or a blank is taken. *)
Theorem parse_links_other_extension :
  parse_links [anchor link_notes_txt ">notes</a></li>"] = Some [link_notes_txt] /\
  archive_extension link_notes_txt = false.
Proof. split; vm_compute; reflexivity. Qed.

(** C6, as stated, fails: the link pattern does not bound the year of the
    folder, so the extractor returns a link whose year is out of the range
    of the version pattern, and the version parser rejects it. *)
Lemma links_rejected_by_version_parser :
  parse_links [anchor link_2030 ">Windows</a></li>"] = Some [link_2030] /\
  parse_maya_version link_2030 = None.
Proof. split; vm_compute; reflexivity. Qed.

(** C6 (amended). A link returned by the extractor has no line feed, so
    the version parser accepts it as soon as it has (after [%20] has become
    [+]) a segment [/devkit+YYYY/] with [YYYY] of the form [20[12][0-9]],
    and the year returned is the year of such a segment; the extractor
    does not bound the year of the folder. *)
Theorem links_then_version (lines urls : list string) (u y : string) :
  parse_links lines = Some urls -> In u urls ->
  has_segment y (Text.replace_pct20 u) ->
  no_newline u /\
  exists y', parse_maya_version u = Some y' /\ has_segment y' (Text.replace_pct20 u).
Proof.
  intros Hl Hu Hseg.
  destruct (parse_links_In lines urls u Hl Hu) as (ln & _ & Hm).
  pose proof (link_no_newline ln u Hm) as Hnl.
  split; [exact Hnl|].
  destruct (match_version_complete _ y (replace_no_newline u Hnl) Hseg) as [y' Hy'].
  exists y'. split; [exact Hy'|]. apply match_version_sound, Hy'.
Qed.

Lemma links_then_version_witness :
  no_newline link_2020_1_windows /\
  exists y', parse_maya_version link_2020_1_windows = Some y' /\
             has_segment y' (Text.replace_pct20 link_2020_1_windows).
Proof.
  apply (links_then_version
           [anchor link_2020_1_windows " target=_blank>Windows</a></li>"]
           [link_2020_1_windows] link_2020_1_windows "2020").
  - vm_compute. reflexivity.
  - left. reflexivity.
  - split.
    + exists "2"%char, "0"%char. repeat split; reflexivity.
    + exists "https://autodesk-adn-transfer.s3-us-west-2.amazonaws.com/ADN+Extranet/M%26E/Maya",
             "Autodesk_Maya_2020_1_Update_DEVKIT_Windows.zip".
      vm_compute. reflexivity.
Defined.

(** ** Download and extraction *)

Section WorldFacts.

Lemma isdir_spec (p : string) (w : world) : Fs.isdir p w = true <-> p ∈ dirs w.
Proof. unfold Fs.isdir. apply bool_decide_eq_true. Qed.

Lemma write_file_dirs (p q content : string) (w : world) :
  p ∈ dirs w -> p ∈ dirs (Fs.write_file q content w).
Proof. cbn [Fs.write_file dirs]. set_solver. Qed.

Lemma write_all_dirs (p : string) (fs : list (string * string)) (w : world) :
  p ∈ dirs w -> p ∈ dirs (Fs.write_all fs w).
Proof.
  unfold Fs.write_all. revert w.
  induction fs as [|f fs IH]; intros w H; [exact H|].
  cbn [fold_left]. apply IH, write_file_dirs, H.
Qed.

Lemma unpacked_in_dirs (p : string) (u : unpacked) (w : world) :
  p ∈ dirs w -> p ∈ dirs (Fs.unpacked_in u w).
Proof.
  intros H. unfold Fs.unpacked_in. apply write_all_dirs.
  cbn [Fs.add_dirs dirs]. set_solver.
Qed.

Lemma run_tool_dirs (e : env) (tool file_path dest p : string) (w w' : world) :
  run_tool e tool file_path dest w = (Ok tt, w') -> p ∈ dirs w -> p ∈ dirs w'.
Proof.
  unfold run_tool. destruct (files w !! file_path) as [content|]; [|discriminate].
  cbv zeta. destruct (failed (unpack e tool content dest)); [discriminate|].
  intros H. injection H as <-. apply unpacked_in_dirs.
Qed.

Lemma makedirs_dest (p : string) (w w' : world) :
  Fs.makedirs p w = (Ok tt, w') -> p ∈ dirs w'.
Proof.
  unfold Fs.makedirs.
  destruct (Fs.isdir p w || existsb (fun q => Fs.is_file q w) (p :: Fs.ancestors p));
    [discriminate|].
  intros H. injection H as <-. cbn [Fs.add_dirs dirs list_to_set]. set_solver.
Qed.

(** What [extract] does, step by step. *)
Lemma extract_unfold (e : env) (file_path dest : string) (w : world) :
  extract e file_path dest w =
  let w1 := snd (_log ("-- Unzipping:   " +:+ file_path) w) in
  match (if Fs.isdir dest w1 then (Ok tt, w1) else Fs.makedirs dest w1) with
  | (Ok _, w2) =>
      (if String.eqb (host e) "Windows" then run_tool e "zipfile" file_path dest
       else if String.eqb (host e) "Linux" then run_tool e "tarfile" file_path dest
       else if String.eqb (host e) "Darwin" then
         run_tool e "7z x -oFRED" file_path dest
       else ret tt) w2
  | (Raise x, w2) => (Raise x, w2)
  end.
Proof. reflexivity. Qed.

(** After a successful [extract] the destination is a directory. *)
Lemma extract_dest (e : env) (file_path dest : string) (w w' : world) :
  extract e file_path dest w = (Ok tt, w') -> Fs.isdir dest w' = true.
Proof.
  rewrite extract_unfold. cbv zeta.
  set (w1 := snd (_log _ w)).
  destruct (Fs.isdir dest w1) eqn:Hd.
  - apply isdir_spec in Hd. intros H. apply isdir_spec.
    destruct (String.eqb (host e) "Windows"); [eapply run_tool_dirs; eauto|].
    destruct (String.eqb (host e) "Linux"); [eapply run_tool_dirs; eauto|].
    destruct (String.eqb (host e) "Darwin"); [eapply run_tool_dirs; eauto|].
    injection H as <-. exact Hd.
  - destruct (Fs.makedirs dest w1) as [[[]|x] w2] eqn:Hm; [|discriminate].
    apply makedirs_dest in Hm. intros H. apply isdir_spec.
    destruct (String.eqb (host e) "Windows"); [eapply run_tool_dirs; eauto|].
    destruct (String.eqb (host e) "Linux"); [eapply run_tool_dirs; eauto|].
    destruct (String.eqb (host e) "Darwin"); [eapply run_tool_dirs; eauto|].
    injection H as <-. exact Hm.
Qed.

Lemma obtain_skips (e : env) (url maya_ver : string) (update_num : Z) (w : world) :
  Fs.isdir (dest_of e maya_ver update_num) w = true ->
  obtain e url maya_ver update_num w = (Ok tt, w).
Proof. unfold obtain. intros ->. reflexivity. Qed.

(** After a successful [obtain] the destination is a directory. *)
Lemma obtain_dest (e : env) (url maya_ver : string) (update_num : Z) (w w' : world) :
  obtain e url maya_ver update_num w = (Ok tt, w') ->
  Fs.isdir (dest_of e maya_ver update_num) w' = true.
Proof.
  unfold obtain. destruct (Fs.isdir (dest_of e maya_ver update_num) w) eqn:Hd; cbn [negb].
  - intros H. injection H as <-. exact Hd.
  - unfold bind. destruct (download e url w) as [[file_path|x] w1]; [|discriminate].
    apply extract_dest.
Qed.

End WorldFacts.

(** C8. When the directory [<version>.<update>] exists already, [obtain]
    downloads nothing and unpacks nothing: it returns with the world
    (directories, files, output) as it was, whatever the link and the
    remote content are.  Hence a second [obtain] for the same version and
    update after a successful one does nothing. *)
Theorem obtain_idempotent (e : env) (url maya_ver : string) (update_num : Z)
    (w : world) :
  (Fs.isdir (dest_of e maya_ver update_num) w = true ->
   obtain e url maya_ver update_num w = (Ok tt, w)) /\
  (forall w', obtain e url maya_ver update_num w = (Ok tt, w') ->
     forall (e2 : env) (url2 : string), ROOT e2 = ROOT e ->
       obtain e2 url2 maya_ver update_num w' = (Ok tt, w')).
Proof.
  split; [apply obtain_skips|].
  intros w' H e2 url2 Hroot. apply obtain_skips.
  unfold dest_of. rewrite Hroot. exact (obtain_dest e url maya_ver update_num w w' H).
Qed.

(** C10. On a host that is neither Windows nor Linux nor Darwin, [extract]
    writes its message, makes the destination a directory when it is not
    one (nothing being in the way), unpacks nothing and returns without
    raising; an [obtain] for the same version and update afterwards finds
    the directory and skips download and extraction. *)
Theorem extract_unknown_host (e : env) (file_path maya_ver : string)
    (update_num : Z) (w : world) :
  let dest := dest_of e maya_ver update_num in
  host e <> "Windows" -> host e <> "Linux" -> host e <> "Darwin" ->
  Fs.isdir dest w = true \/
    existsb (fun q => Fs.is_file q w) (dest :: Fs.ancestors dest) = false ->
  exists w',
    extract e file_path dest w = (Ok tt, w') /\
    files w' = files w /\
    log w' = log w ++ ["-- Unzipping:   " +:+ file_path] /\
    dirs w' = (if Fs.isdir dest w then dirs w
               else list_to_set (dest :: Fs.ancestors dest) ∪ dirs w) /\
    Fs.isdir dest w' = true /\
    forall url, obtain e url maya_ver update_num w' = (Ok tt, w').
Proof.
  intros dest HW HL HD Hfree.
  apply String.eqb_neq in HW, HL, HD.
  assert (Hex : exists w', extract e file_path dest w = (Ok tt, w') /\
                 files w' = files w /\
                 log w' = log w ++ ["-- Unzipping:   " +:+ file_path] /\
                 dirs w' = (if Fs.isdir dest w then dirs w
                            else list_to_set (dest :: Fs.ancestors dest) ∪ dirs w)).
  { rewrite extract_unfold. cbv zeta. rewrite HW, HL, HD.
    change (Fs.isdir dest (snd (_log ("-- Unzipping:   " +:+ file_path) w)))
      with (Fs.isdir dest w).
    destruct (Fs.isdir dest w) eqn:Hd.
    - eexists. split; [reflexivity|]. repeat split; reflexivity.
    - destruct Hfree as [Hfree|Hfree]; [discriminate|].
      unfold Fs.makedirs.
      change (Fs.isdir dest (snd (_log ("-- Unzipping:   " +:+ file_path) w)))
        with (Fs.isdir dest w).
      rewrite Hd. cbn [orb].
      change (existsb (fun q => Fs.is_file q (snd (_log ("-- Unzipping:   " +:+ file_path) w)))
                (dest :: Fs.ancestors dest))
        with (existsb (fun q => Fs.is_file q w) (dest :: Fs.ancestors dest)).
      rewrite Hfree.
      eexists. split; [reflexivity|]. repeat split; reflexivity. }
  destruct Hex as (w' & Hext & Hf & Hl & Hdirs).
  exists w'. repeat split; try assumption.
  - exact (extract_dest e file_path dest w w' Hext).
  - intros url. apply obtain_skips. exact (extract_dest e file_path dest w w' Hext).
Qed.

Lemma obtain_idempotent_witness :
  obtain (sample_env "Windows" (Response 200 sample_page)) link_2020_1_windows "2020" 1
    (Fs.add_dirs ["/opt/get/2020.1"] sample_world)
  = (Ok tt, Fs.add_dirs ["/opt/get/2020.1"] sample_world) /\
  obtain (sample_env "Linux" (FetchRaises "gone")) link_2020_0_linux "2020" 1
    (snd (obtain (sample_env "Windows" (Response 200 sample_page))
            link_2020_1_windows "2020" 1 sample_world))
  = (Ok tt, snd (obtain (sample_env "Windows" (Response 200 sample_page))
                   link_2020_1_windows "2020" 1 sample_world)).
Proof.
  split.
  - apply (proj1 (obtain_idempotent (sample_env "Windows" (Response 200 sample_page))
                    link_2020_1_windows "2020" 1
                    (Fs.add_dirs ["/opt/get/2020.1"] sample_world))).
    vm_compute. reflexivity.
  - apply (proj2 (obtain_idempotent (sample_env "Windows" (Response 200 sample_page))
                    link_2020_1_windows "2020" 1 sample_world)).
    + vm_compute. reflexivity.
    + reflexivity.
Defined.

Lemma extract_unknown_host_witness :
  exists w',
    extract (sample_env "FreeBSD" (Response 200 sample_page))
      "/opt/get/Autodesk_Maya_2020_1_Update_DEVKIT_Windows.zip"
      (dest_of (sample_env "FreeBSD" (Response 200 sample_page)) "2020" 1) sample_world
    = (Ok tt, w') /\
    files w' = files sample_world /\
    log w' = log sample_world ++
             ["-- Unzipping:   " +:+ "/opt/get/Autodesk_Maya_2020_1_Update_DEVKIT_Windows.zip"] /\
    dirs w' =
      (if Fs.isdir (dest_of (sample_env "FreeBSD" (Response 200 sample_page)) "2020" 1)
            sample_world
       then dirs sample_world
       else list_to_set
              (dest_of (sample_env "FreeBSD" (Response 200 sample_page)) "2020" 1
               :: Fs.ancestors
                    (dest_of (sample_env "FreeBSD" (Response 200 sample_page)) "2020" 1))
            ∪ dirs sample_world) /\
    Fs.isdir (dest_of (sample_env "FreeBSD" (Response 200 sample_page)) "2020" 1) w' = true /\
    forall url, obtain (sample_env "FreeBSD" (Response 200 sample_page)) url "2020" 1 w'
                = (Ok tt, w').
Proof.
  apply (extract_unknown_host (sample_env "FreeBSD" (Response 200 sample_page))
           "/opt/get/Autodesk_Maya_2020_1_Update_DEVKIT_Windows.zip" "2020" 1 sample_world).
  - discriminate.
  - discriminate.
  - discriminate.
  - right. vm_compute. reflexivity.
Defined.

(** ** [parse] and [main] *)

Section MainFacts.

Variables (e : env) (platform_ : string).

(** The paths through [parse]. *)
Lemma parse_unfold (maya : option string) (w : world) :
  parse e maya platform_ w =
  match maya with
  | None => (Raise AttributeError, w)
  | Some m =>
      match update_of_spec (snd (split_spec m)) with
      | Raise x => (Raise x, w)
      | Ok update =>
          match site e with
          | FetchRaises msg => (Raise (SystemExit 1), logged [msg] w)
          | Response code body =>
              if code =? 200 then
                match parse_links body with
                | None => (Raise (SystemExit 1), logged [decode_error_text] w)
                | Some url_list =>
                    (collect (fst (split_spec m)) update platform_ url_list, w)
                end
              else (Raise (SystemExit 1),
                    logged [str_of_Z code +:+ " returned from: " +:+ SITE] w)
          end
      end
  end.
Proof.
  destruct maya as [m|]; [|reflexivity]. unfold parse.
  destruct (split_spec m) as [major upd]. cbn [fst snd]. unfold bind, lift.
  destruct (update_of_spec upd) as [update|x]; [|reflexivity].
  destruct (site e) as [msg|code body]; [reflexivity|].
  destruct (code =? 200); [|reflexivity].
  destruct (parse_links body); reflexivity.
Qed.

Lemma update_of_spec_error (upd : string) (x : exn) :
  update_of_spec upd = Raise x -> x = ValueError.
Proof.
  unfold update_of_spec. destruct (String.eqb upd "*"); [discriminate|].
  destruct (String.eqb upd ""); [discriminate|].
  destruct (PyInt.int upd); congruence.
Qed.

Lemma meta_error (r : string) (x : exn) : meta r = Raise x -> is_exit x = false.
Proof.
  unfold meta, version_of. destruct (parse_maya_version r) as [v|]; cbn [rbind].
  - unfold parse_update_version, update_of_base.
    destruct (lookup_prefix (chaotic v) (Text.basename r)); [discriminate|].
    destruct (Text.startswith (generic_prefix v) (Text.basename r)); [discriminate|].
    destruct (first_update v (Text.basename r) range_1_10); cbn [rbind];
      [discriminate|].
    intros H. injection H as <-. reflexivity.
  - intros H. injection H as <-. reflexivity.
Qed.

Lemma collect_error (major : string) (update : Z) (url_list : list string) (x : exn) :
  collect major update platform_ url_list = Raise x -> is_exit x = false.
Proof.
  induction url_list as [|r rest IH]; [discriminate|].
  rewrite collect_cons. destruct (meta r) as [c|x'] eqn:Hc; cbn [rbind].
  - destruct (decide (passes major update platform_ c)); [|exact IH].
    destruct (collect major update platform_ rest); cbn [rbind]; [discriminate|].
    intros H. injection H as <-. apply IH. reflexivity.
  - intros H. injection H as <-. exact (meta_error r x' Hc).
Qed.


Lemma parse_exit (maya : option string) (w : world) (code : Z) :
  fst (parse e maya platform_ w) = Raise (SystemExit code) ->
  code = 1 /\ exits_1 e maya platform_ w.
Proof.
  unfold exits_1. rewrite parse_unfold. destruct maya as [m|]; [|discriminate].
  destruct (update_of_spec (snd (split_spec m))) as [update|x] eqn:Hu.
  - destruct (site e) as [msg|c body] eqn:Hs.
    + cbn [fst]. intros H. injection H as <-. split; [reflexivity|].
      exists m, update. eauto 10.
    + destruct (Z.eqb_spec c 200) as [->|Hc].
      * destruct (parse_links body) as [urls|] eqn:Hl; cbn [fst].
        -- intros H. apply collect_error in H. discriminate.
        -- intros H. injection H as <-. split; [reflexivity|].
           exists m, update. eauto 10.
      * cbn [fst]. intros H. injection H as <-. split; [reflexivity|].
        exists m, update. split; [reflexivity|]. split; [exact Hu|]. right. right. left. eauto.
  - cbn [fst]. intros H. injection H as ->.
    apply update_of_spec_error in Hu. discriminate.
Qed.

(** The loop of [main]. *)
Lemma for_each_dryrun (found : list candidate) (w : world) :
  for_each e true found w = (Ok tt, logged (map url_of found) w).
Proof.
  revert w. induction found as [|[[url ver] n] found IH]; intros w.
  - unfold logged. cbn. rewrite app_nil_r. destruct w; reflexivity.
  - cbn [for_each]. unfold bind. cbn. rewrite IH. unfold logged. cbn.
    rewrite <- app_assoc. reflexivity.
Qed.





(** The paths through [main]. *)
Lemma main_unfold (maya : option string) (dryrun : bool) (w : world) :
  main e maya platform_ dryrun w =
  match parse e maya platform_ w with
  | (Ok (c :: found), w') => for_each e dryrun (c :: found) w'
  | (Ok [], w') =>
      (Raise (SystemExit 1),
       logged ["No link for Maya " +:+ str_of_arg maya +:+ " " +:+ platform_ +:+
               String newline "" +:+ "Can you find it there? " +:+ SITE] w')
  | (Raise x, w') => (Raise x, w')
  end.
Proof.
  unfold main, bind. destruct (parse e maya platform_ w) as [[[|c found]|x] w'];
    reflexivity.
Qed.

End MainFacts.


Lemma parse_status (e : env) (maya : option string) (platform_ : string)
    (w : world) (x : exn) :
  fst (parse e maya platform_ w) = Raise x -> exit_status (@Raise unit x) = 1.
Proof.
  intros H. destruct x; try reflexivity.
  apply parse_exit in H as [-> _]. reflexivity.
Qed.




(** * Further properties of the parsers *)

Section ParserExtras.

Lemma lookup_prefix_In (tbl : list (string * Z)) (b : string) (n : Z) :
  lookup_prefix tbl b = Some n -> exists p, In (p, n) tbl.
Proof.
  induction tbl as [|[p m] tbl IH]; [discriminate|]. cbn [lookup_prefix].
  destruct (Text.startswith p b).
  - intros H. injection H as <-. exists p. left. reflexivity.
  - intros H. destruct (IH H) as [q Hq]. exists q. right. exact Hq.
Qed.

Lemma first_update_In (ver b : string) (range : list Z) (d : Z) :
  first_update ver b range = Some d -> In d range.
Proof.
  induction range as [|i range IH]; [discriminate|]. cbn [first_update].
  destruct (Text.startswith (update_prefix ver i) b).
  - intros H. injection H as <-. left. reflexivity.
  - intros H. right. apply IH, H.
Qed.

Lemma chaotic_range (ver p : string) (n : Z) : In (p, n) (chaotic ver) -> 0 <= n <= 4.
Proof.
  unfold chaotic.
  destruct (String.eqb ver "2016"); [|destruct (String.eqb ver "2017");
    [|destruct (String.eqb ver "2018")]]; simpl; intros H;
    repeat (destruct H as [H|H]; [injection H as _ <-; lia|]); contradiction.
Qed.

Lemma update_range (url ver : string) (n : Z) :
  parse_update_version url ver = Ok n -> 0 <= n <= 9.
Proof.
  unfold parse_update_version, update_of_base.
  destruct (lookup_prefix (chaotic ver) (Text.basename url)) as [m|] eqn:Hl.
  - intros H. injection H as <-. apply lookup_prefix_In in Hl as [p Hp].
    apply chaotic_range in Hp. lia.
  - destruct (Text.startswith (generic_prefix ver) (Text.basename url)).
    + intros H. injection H as <-. lia.
    + destruct (first_update ver (Text.basename url) range_1_10) as [d|] eqn:Hf;
        [|discriminate].
      intros H. injection H as <-. apply first_update_In, range_In in Hf. lia.
Qed.

Lemma platform_cases (url l : string) :
  parse_platform url = Some l -> l = "Windows" \/ l = "Linux" \/ l = "Mac".
Proof.
  unfold parse_platform.
  destruct (Text.contains "windows" _); [intros H; injection H as <-; auto|].
  destruct (Text.contains "linux" _); [intros H; injection H as <-; auto|].
  destruct (Text.contains "macos" _ || Text.contains "mac" _);
    [intros H; injection H as <-; auto | discriminate].
Qed.

End ParserExtras.

(** X1. An update number that the parser returns lies between 0 and 9. *)
Theorem parse_update_version_range (url ver : string) (n : Z) :
  parse_update_version url ver = Ok n -> 0 <= n <= 9.
Proof.
  unfold parse_update_version, update_of_base. intros H.
  destruct (lookup_prefix (chaotic ver) (Text.basename url)) as [m|] eqn:Hl.
  - injection H as <-. apply lookup_prefix_In in Hl as [p Hp].
    apply chaotic_range in Hp. lia.
  - destruct (Text.startswith (generic_prefix ver) (Text.basename url));
      [injection H as <-; lia|].
    destruct (first_update ver (Text.basename url) range_1_10) as [d|] eqn:Hf;
      [|discriminate].
    injection H as <-. apply first_update_In, range_In in Hf. lia.
Qed.

Lemma parse_update_version_range_witness : 0 <= 4 <= 9.
Proof.
  apply (parse_update_version_range link_2018_4_windows "2018" 4).
  vm_compute. reflexivity.
Defined.

(** X2. The platform parser answers with one of the three labels
    [Windows], [Linux], [Mac], or with nothing. *)
Theorem parse_platform_labels (url : string) (l : string) :
  parse_platform url = Some l -> l = "Windows" \/ l = "Linux" \/ l = "Mac".
Proof.
  unfold parse_platform. intros H.
  destruct (Text.contains "windows" _); [injection H as <-; auto|].
  destruct (Text.contains "linux" _); [injection H as <-; auto|].
  destruct (Text.contains "macos" _ || Text.contains "mac" _);
    [injection H as <-; auto | discriminate].
Qed.

Lemma parse_platform_labels_witness :
  "Mac" = "Windows" \/ "Mac" = "Linux" \/ "Mac" = "Mac".
Proof.
  apply (parse_platform_labels link_2018_0_mac "Mac"). vm_compute. reflexivity.
Defined.

(** X3. The platform and the update number are read from the file name
    alone: the folders of the link do not count. *)
Theorem parsers_use_base_name (folder name ver : string) :
  ~ occurs "/" name ->
  parse_platform (folder +:+ "/" +:+ name) = parse_platform name /\
  parse_update_version (folder +:+ "/" +:+ name) ver = parse_update_version name ver.
Proof.
  intros Hname. unfold parse_platform, parse_update_version.
  rewrite (basename_spec folder name Hname).
  rewrite (basename_no_slash name); [split; reflexivity|].
  apply contains_false, Hname.
Qed.

Lemma parsers_use_base_name_witness :
  parse_platform ("https://host/windows/linux" +:+ "/" +:+ "Autodesk_Maya_2020_DEVKIT_Mac.dmg")
  = parse_platform "Autodesk_Maya_2020_DEVKIT_Mac.dmg" /\
  parse_update_version
    ("https://host/windows/linux" +:+ "/" +:+ "Autodesk_Maya_2020_DEVKIT_Mac.dmg") "2020"
  = parse_update_version "Autodesk_Maya_2020_DEVKIT_Mac.dmg" "2020".
Proof.
  apply (parsers_use_base_name "https://host/windows/linux"
           "Autodesk_Maya_2020_DEVKIT_Mac.dmg" "2020").
  apply contains_false. vm_compute. reflexivity.
Defined.

(** * Further properties of the specifier and the filter *)

Section SpecifierExtras.

Lemma split_dot_free (a : string) : dot_free a -> split_dot a = [a].
Proof.
  unfold dot_free. induction a as [|c a IH]; [reflexivity|].
  cbn [Text.mem split_dot]. intros H. apply orb_false_iff in H as [Hc Ha].
  rewrite Ascii.eqb_sym in Hc. rewrite Hc, (IH Ha). reflexivity.
Qed.

Lemma split_dot_app (a rest : string) :
  dot_free a -> split_dot (a +:+ "." +:+ rest) = a :: split_dot rest.
Proof.
  unfold dot_free. induction a as [|c a IH]; [reflexivity|].
  rewrite append_cons. cbn [Text.mem split_dot].
  intros H. apply orb_false_iff in H as [Hc Ha].
  rewrite Ascii.eqb_sym in Hc. rewrite Hc, (IH Ha). reflexivity.
Qed.

(** No candidate passes for a platform that is none of the labels. *)
Lemma collect_unknown_platform (major : string) (update : Z) (platform_ : string)
    (url_list : list string) (found : list candidate) :
  platform_ <> "" -> platform_ <> "Windows" -> platform_ <> "Linux" ->
  platform_ <> "Mac" ->
  collect major update platform_ url_list = Ok found -> found = [].
Proof.
  intros H0 HW HL HM H. apply collect_sound in H.
  destruct found as [|c found]; [reflexivity|]. exfalso.
  apply Forall_cons in H as [[_ (_ & _ & [Hp|Hp])] _]; [contradiction|].
  apply platform_cases in Hp. destruct Hp as [Hp|[Hp|Hp]]; congruence.
Qed.

End SpecifierExtras.

(** X4. A specifier is cut at its dots: without dot the update part is
    absent, and whatever follows a second dot is ignored, so [2020.1.5]
    reads as [2020.1]. *)
Theorem split_spec_parts (a b rest : string) :
  dot_free a -> dot_free b ->
  split_spec a = (a, "") /\
  split_spec (a +:+ "." +:+ b) = (a, b) /\
  split_spec (a +:+ "." +:+ b +:+ "." +:+ rest) = (a, b).
Proof.
  intros Ha Hb. unfold split_spec. repeat split.
  - rewrite (split_dot_free a Ha). reflexivity.
  - rewrite (split_dot_app a b Ha), (split_dot_free b Hb). reflexivity.
  - rewrite (split_dot_app a _ Ha), (split_dot_app b rest Hb). reflexivity.
Qed.

Lemma split_spec_parts_witness :
  split_spec "2020" = ("2020", "") /\
  split_spec ("2020" +:+ "." +:+ "1") = ("2020", "1") /\
  split_spec ("2020" +:+ "." +:+ "1" +:+ "." +:+ "5.beta") = ("2020", "1").
Proof.
  apply (split_spec_parts "2020" "1" "5.beta"); vm_compute; reflexivity.
Defined.

(** X5. A platform specifier other than the empty one and the three
    labels keeps no candidate: in particular [Darwin], [windows] and
    [macOS] select nothing. *)
Theorem filter_links_unknown_platform (maya platform_ : string)
    (url_list : list string) (found : list candidate) :
  platform_ <> "" -> platform_ <> "Windows" -> platform_ <> "Linux" ->
  platform_ <> "Mac" ->
  filter_links maya platform_ url_list = Ok found -> found = [].
Proof.
  intros H0 HW HL HM. rewrite filter_links_unfold.
  destruct (update_of_spec (snd (split_spec maya))) as [update|]; [|discriminate].
  cbn [rbind]. apply collect_unknown_platform; assumption.
Qed.

Lemma filter_links_unknown_platform_witness :
  @nil candidate = [].
Proof.
  apply (filter_links_unknown_platform "2020.*" "Darwin"
           [link_2020_0_linux; link_2018_0_mac; link_2020_1_windows] []);
    try discriminate.
  vm_compute. reflexivity.
Defined.

(** X6. The empty specifier does not mean any release: it keeps the
    candidates of every version whose update number is 0 (and whose
    platform fits). *)
Theorem filter_links_empty_specifier (platform_ : string) (url_list : list string)
    (cands : list candidate) :
  metas url_list = Ok cands ->
  filter_links "" platform_ url_list =
  Ok (filter (fun c => update_in c = 0 /\
                       (platform_ = "" \/ parse_platform (url_of c) = Some platform_))
        cands).
Proof.
  intros Hm. rewrite filter_links_unfold.
  change (update_of_spec (snd (split_spec ""))) with (@Ok Z 0). cbn [rbind].
  rewrite (collect_metas _ _ _ _ _ Hm). f_equal. apply list_filter_iff.
  intros c. unfold passes. change (fst (split_spec "")) with "".
  split.
  - intros (_ & [H|H] & Hp); [lia|]. split; [symmetry; exact H|exact Hp].
  - intros [H Hp]. split; [left; reflexivity|]. split; [right; symmetry; exact H|exact Hp].
Qed.

Lemma filter_links_empty_specifier_witness :
  filter_links "" "" [link_2020_0_linux; link_2020_1_windows; link_2018_0_mac] =
  Ok (filter (fun c => update_in c = 0 /\
                       ("" = "" \/ parse_platform (url_of c) = Some ""))
        [(link_2020_0_linux, "2020", 0); (link_2020_1_windows, "2020", 1);
         (link_2018_0_mac, "2018", 0)]).
Proof.
  apply (filter_links_empty_specifier ""
           [link_2020_0_linux; link_2020_1_windows; link_2018_0_mac]).
  vm_compute. reflexivity.
Defined.

(** X7. What a specifier with an update number keeps is what the wild card
    keeps for the same major part and platform, restricted to that update
    number. *)
Theorem filter_links_refines_wildcard (maya wild platform_ : string)
    (url_list : list string) (all_updates : list candidate) (n : Z) :
  fst (split_spec wild) = fst (split_spec maya) ->
  snd (split_spec wild) = "*" ->
  update_of_spec (snd (split_spec maya)) = Ok n -> 0 <= n ->
  filter_links wild platform_ url_list = Ok all_updates ->
  filter_links maya platform_ url_list =
  Ok (filter (fun c => update_in c = n) all_updates).
Proof.
  intros Hmajor Hwild Hn Hpos. rewrite !filter_links_unfold, Hwild, Hn, Hmajor.
  change (update_of_spec "*") with (@Ok Z (-1)). cbn [rbind].
  generalize (fst (split_spec maya)) as major. intros major.
  revert all_updates. induction url_list as [|r rest IH]; intros all_updates H.
  - injection H as <-. reflexivity.
  - rewrite collect_cons in H |- *. destruct (meta r) as [c|x]; [|discriminate].
    cbn [rbind] in *.
    destruct (decide (passes major (-1) platform_ c)) as [Hw|Hw].
    + destruct (collect major (-1) platform_ rest) as [f|x]; [|discriminate].
      cbn [rbind] in H. injection H as <-. rewrite (IH f eq_refl), filter_cons.
      destruct Hw as (H1 & _ & H3).
      destruct (decide (passes major n platform_ c)) as [Hs|Hs];
        destruct (decide (update_in c = n)) as [Hu|Hu]; try reflexivity; exfalso.
      * destruct Hs as (_ & [Hs|Hs] & _); [lia|congruence].
      * apply Hs. unfold passes. auto.
    + destruct (decide (passes major n platform_ c)) as [Hs|Hs]; [|exact (IH _ H)].
      exfalso. apply Hw. destruct Hs as (H1 & _ & H3). unfold passes.
      split; [exact H1|]. split; [left; lia|exact H3].
Qed.

Lemma filter_links_refines_wildcard_witness :
  filter_links "2018.4" "" [link_2018_0_mac; link_2020_0_linux; link_2018_4_windows] =
  Ok (filter (fun c => update_in c = 4)
        [(link_2018_0_mac, "2018", 0); (link_2018_4_windows, "2018", 4)]).
Proof.
  apply (filter_links_refines_wildcard "2018.4" "2018.*" ""
           [link_2018_0_mac; link_2020_0_linux; link_2018_4_windows]
           [(link_2018_0_mac, "2018", 0); (link_2018_4_windows, "2018", 4)] 4).
  - reflexivity.
  - reflexivity.
  - vm_compute. reflexivity.
  - lia.
  - vm_compute. reflexivity.
Defined.

(** * Further properties of the link extractor *)

Section LinkExtras.

Lemma rmatch_plus (a : atom) (p : list item) (cap : bool) (grp s r : string) :
  rmatch (Plus a :: p) cap grp s = Some r ->
  exists c pre post, s = String c (pre +:+ post) /\ accepts a c = true /\
    Text.all (accepts a) pre = true /\
    rmatch p cap (pushes cap (String c pre) grp) post = Some r.
Proof.
  cbn [rmatch]. destruct s as [|c s]; [discriminate|].
  destruct (accepts a c) eqn:Hc; [|discriminate].
  intros H. apply greedy_sound in H as (pre & post & -> & Hall & H).
  exists c, pre, post. rewrite pushes_cons. auto.
Qed.

Lemma rmatch_star (a : atom) (p : list item) (cap : bool) (grp s r : string) :
  rmatch (Star a :: p) cap grp s = Some r ->
  exists pre post, s = pre +:+ post /\ Text.all (accepts a) pre = true /\
    rmatch p cap (pushes cap pre grp) post = Some r.
Proof. cbn [rmatch]. apply greedy_sound. Qed.

Lemma rmatch_close (p : list item) (cap : bool) (grp s : string) :
  rmatch (Close :: p) cap grp s = rmatch p false grp s.
Proof. reflexivity. Qed.

Lemma rmatch_open (p : list item) (cap : bool) (grp s : string) :
  rmatch (Open :: p) cap grp s = rmatch p true "" s.
Proof. reflexivity. Qed.

(** The anatomy of a line that matches and of its group. *)
Lemma link_anatomy (ln u : string) :
  match_group links_pattern ln = Some u ->
  exists before p1 c1 p2 ts p3 p4 p5 c2 p6 after,
    u = "https://" +:+ p1 +:+ ".amazonaws" +:+ String c1 "" +:+ "com/" +:+ p2 +:+
        "/Maya/devkit" +:+ ts +:+ p3 +:+ "/" +:+ p4 +:+ "Maya" +:+ p5 +:+ String c2 "" /\
    ln = before +:+ "<a href=" +:+ String dquote "" +:+ u +:+ String dquote "" +:+
         p6 +:+ ">" +:+ after /\
    Text.all (accepts (Lit "t")) ts = true /\
    Text.mem c2 ".dmg zip tgz" = true.
Proof.
  unfold match_group, links_pattern. cbn [app]. intros H.
  apply rmatch_star in H as (pre0 & s0 & -> & _ & H).
  apply rmatch_lits in H as (s1 & -> & H). cbn [app] in H.
  apply rmatch_one in H as (q1 & s2 & -> & Hq1 & H).
  rewrite rmatch_open in H.
  apply rmatch_lits in H as (s3 & -> & H). cbn [app] in H.
  apply rmatch_star in H as (p1 & s4 & -> & Hp1 & H).
  apply rmatch_lits in H as (s5 & -> & H). cbn [app] in H.
  apply rmatch_one in H as (c1 & s6 & -> & Hc1 & H).
  apply rmatch_lits in H as (s7 & -> & H). cbn [app] in H.
  apply rmatch_star in H as (p2 & s8 & -> & Hp2 & H).
  apply rmatch_lits in H as (s9 & -> & H). cbn [app] in H.
  apply rmatch_plus in H as (t1 & ts & s10 & -> & Ht1 & Hts & H).
  apply rmatch_star in H as (p3 & s11 & -> & Hp3 & H).
  apply rmatch_lits in H as (s12 & -> & H). cbn [app] in H.
  apply rmatch_star in H as (p4 & s13 & -> & Hp4 & H).
  apply rmatch_lits in H as (s14 & -> & H). cbn [app] in H.
  apply rmatch_star in H as (p5 & s15 & -> & Hp5 & H).
  apply rmatch_one in H as (c2 & s16 & -> & Hc2 & H).
  rewrite rmatch_close in H.
  apply rmatch_one in H as (q2 & s17 & -> & Hq2 & H).
  apply rmatch_star in H as (p6 & s18 & -> & Hp6 & H).
  apply rmatch_lits in H as (s19 & -> & H). cbn [app] in H.
  cbn [rmatch] in H. rewrite greedy_tail in H. cbn [pushes push] in H.
  simpl in Hq1, Hq2, Ht1. apply Ascii.eqb_eq in Hq1, Hq2, Ht1. subst q1 q2 t1.
  injection H as <-.
  exists pre0, p1, c1, p2, ts, p3, p4, p5, c2, p6, s19.
  split; [|split; [|split; [exact Hts|exact Hc2]]];
    rewrite ?append_assoc, ?append_cons, ?append_nil_l; reflexivity.
Qed.

Lemma greedy_all (P : ascii -> bool) (a : atom) (k : string -> string -> option string)
    (cap : bool) (s grp r : string) :
  (forall g t, Text.all P g = true -> Text.all P t = true -> k g t = Some r ->
               Text.all P r = true) ->
  Text.all P grp = true -> Text.all P s = true ->
  greedy a k cap grp s = Some r -> Text.all P r = true.
Proof.
  intros Hk. revert grp. induction s as [|c s IH]; intros grp Hg Hs H; simpl in H.
  - exact (Hk _ _ Hg Hs H).
  - destruct (accepts a c); [|exact (Hk _ _ Hg Hs H)].
    destruct (greedy a k cap (push cap c grp) s) as [r'|] eqn:E;
      [|exact (Hk _ _ Hg Hs H)].
    injection H as <-. simpl in Hs. apply andb_true_iff in Hs as [Hc Hs].
    eapply IH; [|exact Hs|exact E].
    destruct cap; [|exact Hg]. unfold push. rewrite all_app, Hg. simpl.
    rewrite Hc. reflexivity.
Qed.

(** The characters of a group are characters of the text. *)
Lemma rmatch_all (P : ascii -> bool) (p : list item) (cap : bool) (grp s r : string) :
  Text.all P grp = true -> Text.all P s = true ->
  rmatch p cap grp s = Some r -> Text.all P r = true.
Proof.
  revert cap grp s. induction p as [|i p IH]; intros cap grp s Hg Hs H.
  - injection H as <-. exact Hg.
  - assert (Hpush : forall c, P c = true -> Text.all P (push cap c grp) = true).
    { intros c Hc. destruct cap; [|exact Hg]. unfold push.
      rewrite all_app, Hg. simpl. rewrite Hc. reflexivity. }
    destruct i as [a|a|a| |]; cbn [rmatch] in H.
    + destruct s as [|c s]; [discriminate|]. simpl in Hs.
      apply andb_true_iff in Hs as [Hc Hs].
      destruct (accepts a c); [|discriminate].
      eapply IH; [exact (Hpush c Hc)|exact Hs|exact H].
    + eapply (greedy_all P a); [|exact Hg|exact Hs|exact H].
      intros g t Hg' Ht Hk. exact (IH cap g t Hg' Ht Hk).
    + destruct s as [|c s]; [discriminate|]. simpl in Hs.
      apply andb_true_iff in Hs as [Hc Hs].
      destruct (accepts a c); [|discriminate].
      eapply (greedy_all P a); [|exact (Hpush c Hc)|exact Hs|exact H].
      intros g t Hg' Ht Hk. exact (IH cap g t Hg' Ht Hk).
    + exact (IH true "" s eq_refl Hs H).
    + exact (IH false grp s Hg Hs H).
Qed.

Lemma valid_ascii (s : string) : ascii_text s -> Utf8.valid s = true.
Proof.
  unfold ascii_text. induction s as [|c s IH]; [reflexivity|].
  cbn [Text.all Utf8.valid]. intros H. apply andb_true_iff in H as [Hc Hs].
  rewrite Hc. exact (IH Hs).
Qed.

End LinkExtras.

(** X8. Every link returned is the text between the quotes of an
    [<a href=] that some [>] follows on the same line of the page, and it has the
    form [https://] ... [.amazonaws] (any character) [com/] ...
    [/Maya/devkit] ([t] any number of times) ... [/] ... [Maya] ... ended by
    one character of [. d m g z i p t] or a blank, without line feed. *)
Theorem parse_links_shape (lines urls : list string) (u : string) :
  parse_links lines = Some urls -> In u urls ->
  exists ln before p1 c1 p2 ts p3 p4 p5 c2 p6 after,
    In ln lines /\
    u = "https://" +:+ p1 +:+ ".amazonaws" +:+ String c1 "" +:+ "com/" +:+ p2 +:+
        "/Maya/devkit" +:+ ts +:+ p3 +:+ "/" +:+ p4 +:+ "Maya" +:+ p5 +:+ String c2 "" /\
    ln = before +:+ "<a href=" +:+ String dquote "" +:+ u +:+ String dquote "" +:+
         p6 +:+ ">" +:+ after /\
    Text.all (accepts (Lit "t")) ts = true /\
    Text.mem c2 ".dmg zip tgz" = true /\
    no_newline u.
Proof.
  intros Hl Hu. destruct (parse_links_In lines urls u Hl Hu) as (ln & Hin & Hm).
  destruct (link_anatomy ln u Hm)
    as (before & p1 & c1 & p2 & ts & p3 & p4 & p5 & c2 & p6 & after & H1 & H2 & H3 & H4).
  exists ln, before, p1, c1, p2, ts, p3, p4, p5, c2, p6, after.
  repeat (split; [assumption|]). exact (link_no_newline ln u Hm).
Qed.

Lemma parse_links_shape_witness :
  exists ln before p1 c1 p2 ts p3 p4 p5 c2 p6 after,
    In ln [anchor link_2020_0_linux " target=_blank>Linux</a></li>"] /\
    link_2020_0_linux =
      "https://" +:+ p1 +:+ ".amazonaws" +:+ String c1 "" +:+ "com/" +:+ p2 +:+
      "/Maya/devkit" +:+ ts +:+ p3 +:+ "/" +:+ p4 +:+ "Maya" +:+ p5 +:+ String c2 "" /\
    ln = before +:+ "<a href=" +:+ String dquote "" +:+ link_2020_0_linux +:+
         String dquote "" +:+ p6 +:+ ">" +:+ after /\
    Text.all (accepts (Lit "t")) ts = true /\
    Text.mem c2 ".dmg zip tgz" = true /\
    no_newline link_2020_0_linux.
Proof.
  apply (parse_links_shape [anchor link_2020_0_linux " target=_blank>Linux</a></li>"]
           [link_2020_0_linux] link_2020_0_linux).
  - vm_compute. reflexivity.
  - left. reflexivity.
Defined.

(** X9. A line of the page gives at most one link, and the links come in
    the order of their lines: there are never more links than lines. *)
Theorem parse_links_one_per_line (lines urls : list string) :
  parse_links lines = Some urls ->
  (length urls <= length lines)%nat /\
  exists ls, sublist ls lines /\
             Forall2 (fun ln u => match_group links_pattern ln = Some u) ls urls.
Proof.
  revert urls. induction lines as [|ln rest IH]; intros urls H; cbn [parse_links] in H.
  - injection H as <-. split; [reflexivity|]. exists []. split; constructor.
  - destruct (match_group links_pattern ln) as [g|] eqn:Hg.
    + destruct (Utf8.decode g) as [u|] eqn:Hd; [|discriminate].
      destruct (parse_links rest) as [us|]; [|discriminate].
      injection H as <-. apply decode_eq in Hd as ->.
      destruct (IH us eq_refl) as [Hlen (ls & Hsub & Hall)].
      split; [simpl; lia|]. exists (ln :: ls).
      split; [apply sublist_skip, Hsub | constructor; assumption].
    + destruct (IH urls H) as [Hlen (ls & Hsub & Hall)].
      split; [simpl; lia|]. exists ls. split; [apply sublist_cons, Hsub|exact Hall].
Qed.

Lemma parse_links_one_per_line_witness :
  (length [link_2020_1_windows] <= length [two_links_line])%nat /\
  exists ls,
    sublist ls [two_links_line] /\
    Forall2 (fun ln u => match_group links_pattern ln = Some u) ls [link_2020_1_windows].
Proof.
  apply (parse_links_one_per_line [two_links_line] [link_2020_1_windows]).
  vm_compute. reflexivity.
Defined.

(** X10. On a page of ASCII characters the extractor never fails: the
    decoding of a link cannot raise. *)
Theorem parse_links_ascii (lines : list string) :
  Forall ascii_text lines -> exists urls, parse_links lines = Some urls.
Proof.
  induction 1 as [|ln rest Hln _ [us IH]]; [exists []; reflexivity|].
  cbn [parse_links]. rewrite IH.
  destruct (match_group links_pattern ln) as [g|] eqn:Hg; [|eauto].
  unfold Utf8.decode. rewrite valid_ascii; [eauto|].
  exact (rmatch_all (Utf8.between 0 127) links_pattern false "" ln g eq_refl Hln Hg).
Qed.

Lemma parse_links_ascii_witness : exists urls, parse_links sample_page = Some urls.
Proof.
  apply (parse_links_ascii sample_page).
  repeat constructor.
Defined.

(** * Further properties of download, extraction and the whole run *)

Section GrowFacts.

Lemma grows_refl (w : world) : grows w w.
Proof. unfold grows. repeat split; reflexivity. Qed.

Lemma grows_trans (w1 w2 w3 : world) : grows w1 w2 -> grows w2 w3 -> grows w1 w3.
Proof.
  intros (A1 & B1 & C1) (A2 & B2 & C2). unfold grows.
  repeat split; etrans; eassumption.
Qed.

Lemma log_grows (msg : string) (w : world) : grows w (snd (_log msg w)).
Proof.
  unfold grows. cbn. repeat split; try reflexivity. apply prefix_app_r. reflexivity.
Qed.

Lemma logged_grows (msgs : list string) (w : world) : grows w (logged msgs w).
Proof.
  unfold grows. cbn. repeat split; try reflexivity. apply prefix_app_r. reflexivity.
Qed.

Lemma write_file_grows (p content : string) (w : world) :
  grows w (Fs.write_file p content w).
Proof.
  unfold grows. cbn [Fs.write_file dirs files log]. repeat split.
  - set_solver.
  - rewrite dom_insert_L. set_solver.
  - reflexivity.
Qed.

Lemma write_all_grows (fs : list (string * string)) (w : world) :
  grows w (Fs.write_all fs w).
Proof.
  unfold Fs.write_all. revert w.
  induction fs as [|f fs IH]; intros w; [apply grows_refl|].
  cbn [fold_left]. eapply grows_trans; [apply write_file_grows|apply IH].
Qed.

Lemma unpacked_in_grows (u : unpacked) (w : world) : grows w (Fs.unpacked_in u w).
Proof.
  unfold Fs.unpacked_in. eapply grows_trans; [|apply write_all_grows].
  unfold grows. cbn [Fs.add_dirs dirs files log].
  repeat split; [set_solver|reflexivity|reflexivity].
Qed.

Lemma run_tool_grows (e : env) (tool file_path dest : string) (w : world) :
  grows w (snd (run_tool e tool file_path dest w)).
Proof.
  unfold run_tool. destruct (files w !! file_path) as [content|]; [|apply grows_refl].
  cbv zeta. destruct (failed (unpack e tool content dest)); apply unpacked_in_grows.
Qed.

Lemma makedirs_grows (p : string) (w : world) : grows w (snd (Fs.makedirs p w)).
Proof.
  unfold Fs.makedirs.
  destruct (Fs.isdir p w || existsb (fun q => Fs.is_file q w) (p :: Fs.ancestors p));
    [apply grows_refl|].
  unfold grows. cbn [snd Fs.add_dirs dirs files log].
  repeat split; [set_solver|reflexivity|reflexivity].
Qed.

Lemma bind_grows {A B : Type} (m : M A) (f : A -> M B) (w : world) :
  grows w (snd (m w)) -> (forall a w1, grows w1 (snd (f a w1))) ->
  grows w (snd (bind m f w)).
Proof.
  intros Hm Hf. unfold bind. destruct (m w) as [[a|x] w1]; [|exact Hm].
  eapply grows_trans; [exact Hm|apply Hf].
Qed.

Lemma extract_grows (e : env) (file_path dest : string) (w : world) :
  grows w (snd (extract e file_path dest w)).
Proof.
  unfold extract. apply bind_grows; [apply log_grows|]. intros _ w1.
  apply bind_grows.
  - destruct (Fs.isdir dest w1); [apply grows_refl|apply makedirs_grows].
  - intros _ w2.
    destruct (String.eqb (host e) "Windows"); [apply run_tool_grows|].
    destruct (String.eqb (host e) "Linux"); [apply run_tool_grows|].
    destruct (String.eqb (host e) "Darwin"); [apply run_tool_grows|apply grows_refl].
Qed.

Lemma urlretrieve_grows (e : env) (url file_path : string) (w : world) :
  grows w (snd (urlretrieve e url file_path w)).
Proof.
  unfold urlretrieve.
  destruct (remote e url); [|destruct (partial e url); [|apply grows_refl]];
    destruct (Fs.isdir file_path w || Fs.ends_with_slash file_path);
    solve [apply grows_refl|apply write_file_grows].
Qed.

Lemma download_grows (e : env) (url : string) (w : world) :
  grows w (snd (download e url w)).
Proof.
  unfold download. apply bind_grows; [apply log_grows|]. intros _ w1.
  apply bind_grows; [apply urlretrieve_grows|]. intros _ w2. apply grows_refl.
Qed.

Lemma obtain_grows (e : env) (url ver : string) (n : Z) (w : world) :
  grows w (snd (obtain e url ver n w)).
Proof.
  unfold obtain. destruct (Fs.isdir (dest_of e ver n) w); cbn [negb];
    [apply grows_refl|].
  apply bind_grows; [apply download_grows|]. intros fp w1. apply extract_grows.
Qed.

Lemma for_each_grows (e : env) (dryrun : bool) (found : list candidate) (w : world) :
  grows w (snd (for_each e dryrun found w)).
Proof.
  revert w. induction found as [|[[url ver] n] found IH]; intros w; [apply grows_refl|].
  cbn [for_each]. apply bind_grows; [|intros _ w1; apply IH].
  destruct dryrun; [apply log_grows|apply obtain_grows].
Qed.

(** [parse] leaves the file system alone. *)
Lemma parse_same_fs (e : env) (maya : option string) (platform_ : string) (w : world) :
  same_fs w (snd (parse e maya platform_ w)) /\ grows w (snd (parse e maya platform_ w)).
Proof.
  rewrite parse_unfold. destruct maya as [m|]; [|split; [split; reflexivity|apply grows_refl]].
  destruct (update_of_spec (snd (split_spec m)));
    [|split; [split; reflexivity|apply grows_refl]].
  destruct (site e) as [msg|code body];
    [split; [split; reflexivity|apply logged_grows]|].
  destruct (code =? 200); [|split; [split; reflexivity|apply logged_grows]].
  destruct (parse_links body);
    split; try (split; reflexivity); [apply grows_refl|apply logged_grows].
Qed.

Lemma for_each_dryrun_same_fs (e : env) (found : list candidate) (w : world) :
  same_fs w (snd (for_each e true found w)).
Proof. rewrite for_each_dryrun. split; reflexivity. Qed.

End GrowFacts.

(** X11. Whatever happens, a run removes no directory and no file, and
    only appends to its output. *)
Theorem main_grows (e : env) (maya : option string) (platform_ : string)
    (dryrun : bool) (w : world) :
  grows w (snd (main e maya platform_ dryrun w)).
Proof.
  rewrite main_unfold.
  pose proof (proj2 (parse_same_fs e maya platform_ w)) as Hp.
  destruct (parse e maya platform_ w) as [[[|c found]|x] w1]; cbn [snd] in *.
  - eapply grows_trans; [exact Hp|apply logged_grows].
  - eapply grows_trans; [exact Hp|apply for_each_grows].
  - exact Hp.
Qed.

(** X12. A dry run never touches the file system, whether it prints links,
    finds none or fails. *)
Theorem dryrun_same_fs (e : env) (maya : option string) (platform_ : string)
    (w : world) :
  same_fs w (snd (main e maya platform_ true w)).
Proof.
  rewrite main_unfold.
  pose proof (proj1 (parse_same_fs e maya platform_ w)) as [Hd Hf].
  destruct (parse e maya platform_ w) as [[[|c found]|x] w1]; cbn [snd] in *.
  - split; assumption.
  - destruct (for_each_dryrun_same_fs e (c :: found) w1) as [Hd' Hf'].
    split; congruence.
  - split; assumption.
Qed.

Section ObtainFacts.

Variable e : env.

(** The paths through [download]. *)
Lemma download_unfold (url : string) (w : world) :
  download e url w =
  let w1 := logged ["-- Downloading: " +:+ url] w in
  let file_path := Fs.join (ROOT e) (Text.basename url) in
  match remote e url with
  | Some content =>
      if Fs.isdir file_path w1 || Fs.ends_with_slash file_path
      then (Raise (OSError file_path), w1)
      else (Ok file_path, Fs.write_file file_path content w1)
  | None =>
      match partial e url with
      | None => (Raise (DownloadError url), w1)
      | Some part =>
          if Fs.isdir file_path w1 || Fs.ends_with_slash file_path
          then (Raise (OSError file_path), w1)
          else (Raise (DownloadError url), Fs.write_file file_path part w1)
      end
  end.
Proof.
  unfold download, bind, urlretrieve, _log, ret, logged. cbn.
  destruct (remote e url); [|destruct (partial e url); [|reflexivity]];
    match goal with |- context [if ?b then _ else _] => destruct b end; reflexivity.
Qed.

(** How [extract] can fail: [makedirs] refuses and the destination is no
    directory, or the tool fails and the destination is one. *)
Lemma extract_raises (file_path dest : string) (w w' : world) (x : exn) :
  extract e file_path dest w = (Raise x, w') ->
  (x = OSError dest /\ Fs.isdir dest w' = false) \/
  (x = ExtractError file_path /\ Fs.isdir dest w' = true).
Proof.
  rewrite extract_unfold. cbv zeta. set (w1 := snd (_log _ w)).
  assert (Htool : forall tool d w2,
             Fs.isdir dest w2 = true ->
             run_tool e tool file_path d w2 = (Raise x, w') ->
             x = ExtractError file_path /\ Fs.isdir dest w' = true).
  { intros tool d w2 Hd. unfold run_tool.
    destruct (files w2 !! file_path) as [content|]; cbv zeta;
      [destruct (failed (unpack e tool content d))|]; try discriminate;
      intros H; injection H as <- <-; split; try reflexivity; try exact Hd.
    apply isdir_spec, unpacked_in_dirs, isdir_spec, Hd. }
  assert (Hrest : forall w2,
             Fs.isdir dest w2 = true ->
             (if String.eqb (host e) "Windows" then run_tool e "zipfile" file_path dest
              else if String.eqb (host e) "Linux" then run_tool e "tarfile" file_path dest
              else if String.eqb (host e) "Darwin" then
                run_tool e "7z x -oFRED" file_path dest
              else ret tt) w2 = (Raise x, w') ->
             x = ExtractError file_path /\ Fs.isdir dest w' = true).
  { intros w2 Hd.
    destruct (String.eqb (host e) "Windows"); [apply Htool, Hd|].
    destruct (String.eqb (host e) "Linux"); [apply Htool, Hd|].
    destruct (String.eqb (host e) "Darwin"); [apply Htool, Hd|]. discriminate. }
  destruct (Fs.isdir dest w1) eqn:Hd.
  - intros H. right. exact (Hrest w1 Hd H).
  - destruct (Fs.makedirs dest w1) as [[[]|x'] w2] eqn:Hm.
    + intros H. right. apply (Hrest w2); [|exact H].
      apply isdir_spec. exact (makedirs_dest dest w1 w2 Hm).
    + intros H. injection H as <- <-. left.
      unfold Fs.makedirs in Hm.
      destruct (Fs.isdir dest w1 ||
                existsb (fun q => Fs.is_file q w1) (dest :: Fs.ancestors dest));
        [|discriminate].
      injection Hm as <- <-. auto.
Qed.

End ObtainFacts.

(** X13. A download that succeeds returns the path [ROOT/<base name>], at
    which the file now has the remote content, whatever was there before;
    no other file changes, and one line is written to the output. *)
Theorem download_writes (e : env) (url file_path : string) (w w' : world) :
  download e url w = (Ok file_path, w') ->
  file_path = Fs.join (ROOT e) (Text.basename url) /\
  files w' !! file_path = remote e url /\
  (forall p, p <> file_path -> files w' !! p = files w !! p) /\
  log w' = log w ++ ["-- Downloading: " +:+ url].
Proof.
  rewrite download_unfold. cbv zeta.
  destruct (remote e url) as [content|];
    [|destruct (partial e url); [destruct (_ || _)|]; discriminate].
  destruct (Fs.isdir _ _ || Fs.ends_with_slash _); [discriminate|].
  intros H. injection H as <- <-. cbn [Fs.write_file files log logged].
  split; [reflexivity|]. split; [apply lookup_insert_eq|].
  split; [|reflexivity]. intros p Hp. apply lookup_insert_ne. congruence.
Qed.

Lemma download_writes_witness :
  "/opt/get/Autodesk_Maya_2020_DEVKIT_Linux.tgz" =
    Fs.join (ROOT (sample_env "Linux" (Response 200 sample_page)))
      (Text.basename link_2020_0_linux) /\
  files (snd (download (sample_env "Linux" (Response 200 sample_page))
                link_2020_0_linux sample_world))
    !! "/opt/get/Autodesk_Maya_2020_DEVKIT_Linux.tgz" =
    remote (sample_env "Linux" (Response 200 sample_page)) link_2020_0_linux /\
  (forall p, p <> "/opt/get/Autodesk_Maya_2020_DEVKIT_Linux.tgz" ->
     files (snd (download (sample_env "Linux" (Response 200 sample_page))
                   link_2020_0_linux sample_world)) !! p = files sample_world !! p) /\
  log (snd (download (sample_env "Linux" (Response 200 sample_page))
              link_2020_0_linux sample_world)) =
    log sample_world ++ ["-- Downloading: " +:+ link_2020_0_linux].
Proof.
  apply (download_writes (sample_env "Linux" (Response 200 sample_page))
           link_2020_0_linux "/opt/get/Autodesk_Maya_2020_DEVKIT_Linux.tgz" sample_world).
  vm_compute. reflexivity.
Defined.



(** X15. When the unpacking fails, the destination directory stays behind:
    every later [obtain] for the same version and update skips download and
    extraction, although the unpacking did not finish. *)
Theorem obtain_extract_fails (e : env) (url f ver : string) (n : Z) (w w' : world) :
  obtain e url ver n w = (Raise (ExtractError f), w') ->
  Fs.isdir (dest_of e ver n) w' = true /\
  forall (e2 : env) (url2 : string), ROOT e2 = ROOT e ->
    obtain e2 url2 ver n w' = (Ok tt, w').
Proof.
  unfold obtain at 1. destruct (Fs.isdir (dest_of e ver n) w) eqn:Hd; cbn [negb];
    [discriminate|].
  unfold bind. destruct (download e url w) as [[fp|x] w1] eqn:Hdl.
  - intros H. apply extract_raises in H as [[H _]|[_ H]]; [discriminate|].
    split; [exact H|]. intros e2 url2 Hroot. apply obtain_skips.
    unfold dest_of in *. rewrite Hroot. exact H.
  - intros H. injection H as -> <-. rewrite download_unfold in Hdl. cbv zeta in Hdl.
    destruct (remote e url); [|destruct (partial e url); [|discriminate]];
      destruct (Fs.isdir _ _ || Fs.ends_with_slash _); discriminate.
Qed.

Lemma obtain_extract_fails_witness :
  Fs.isdir (dest_of corrupt_env "2020" 0)
    (snd (obtain corrupt_env link_2020_0_linux "2020" 0 sample_world)) = true /\
  forall (e2 : env) (url2 : string),
    ROOT e2 = ROOT corrupt_env ->
    obtain e2 url2 "2020" 0
      (snd (obtain corrupt_env link_2020_0_linux "2020" 0 sample_world))
    = (Ok tt, snd (obtain corrupt_env link_2020_0_linux "2020" 0 sample_world)).
Proof.
  apply (obtain_extract_fails corrupt_env link_2020_0_linux
           "/opt/get/Autodesk_Maya_2020_DEVKIT_Linux.tgz" "2020" 0 sample_world).
  vm_compute. reflexivity.
Defined.

Section RunFacts.

Lemma meta_wellformed (u : string) (c : candidate) :
  meta u = Ok c ->
  url_of c = u /\ is_year (version_in c) /\ 0 <= update_in c <= 9.
Proof.
  intros H. split; [exact (meta_url u c H)|]. unfold meta, version_of in H.
  destruct (parse_maya_version u) as [v|] eqn:Hv; [|discriminate]. cbn [rbind] in H.
  destruct (parse_update_version u v) as [n|] eqn:Hn; [|discriminate]. cbn [rbind] in H.
  injection H as <-. cbn. split.
  - apply match_version_sound in Hv. exact (proj1 Hv).
  - exact (update_range u v n Hn).
Qed.

Lemma collect_In (major : string) (update : Z) (platform_ : string)
    (url_list : list string) (found : list candidate) :
  collect major update platform_ url_list = Ok found ->
  Forall (fun c => In (url_of c) url_list) found.
Proof.
  revert found. induction url_list as [|r rest IH]; intros found H.
  - injection H as <-. constructor.
  - rewrite collect_cons in H. destruct (meta r) as [c|x] eqn:Hc; [|discriminate].
    cbn [rbind] in H.
    assert (Hrest : forall f, Forall (fun c => In (url_of c) rest) f ->
                              Forall (fun c => In (url_of c) (r :: rest)) f).
    { intros f Hf. eapply Forall_impl; [exact Hf|]. intros c' Hc'. right. exact Hc'. }
    destruct (decide (passes major update platform_ c)); [|exact (Hrest _ (IH _ H))].
    destruct (collect major update platform_ rest) as [f|x]; [|discriminate].
    cbn [rbind] in H. injection H as <-. constructor; [|exact (Hrest _ (IH _ eq_refl))].
    left. symmetry. exact (meta_url r c Hc).
Qed.

Lemma for_each_dirs (e : env) (found : list candidate) (w w' : world) :
  for_each e false found w = (Ok tt, w') ->
  Forall (fun c => Fs.isdir (dest_of e (version_in c) (update_in c)) w' = true) found.
Proof.
  revert w. induction found as [|[[url ver] n] found IH]; intros w H; [constructor|].
  cbn [for_each] in H. unfold bind in H.
  destruct (obtain e url ver n w) as [[[]|x] w1] eqn:Ho; [|discriminate].
  constructor; [|exact (IH w1 H)].
  cbn. apply isdir_spec.
  pose proof (for_each_grows e false found w1) as (Hd & _). rewrite H in Hd.
  apply Hd, isdir_spec. exact (obtain_dest e url ver n w w1 Ho).
Qed.

End RunFacts.

(** X16. When a run that is no dry run ends normally, the destination
    directory [<version>.<update>] of every candidate the filter returned
    exists. *)
Theorem main_obtains_all (e : env) (maya : option string) (platform_ : string)
    (w w' : world) :
  main e maya platform_ false w = (Ok tt, w') ->
  exists found,
    fst (parse e maya platform_ w) = Ok found /\ found <> [] /\
    Forall (fun c => Fs.isdir (dest_of e (version_in c) (update_in c)) w' = true) found.
Proof.
  rewrite main_unfold.
  destruct (parse e maya platform_ w) as [[[|c found]|x] w1] eqn:Hp; try discriminate.
  intros H. exists (c :: found). split; [reflexivity|]. split; [discriminate|].
  exact (for_each_dirs e (c :: found) w1 w' H).
Qed.

Lemma main_obtains_all_witness :
  exists found,
    fst (parse (sample_env "Windows" (Response 200 sample_page)) (Some "2020.*") ""
           sample_world) = Ok found /\
    found <> [] /\
    Forall (fun c =>
              Fs.isdir (dest_of (sample_env "Windows" (Response 200 sample_page))
                          (version_in c) (update_in c))
                (snd (main (sample_env "Windows" (Response 200 sample_page))
                        (Some "2020.*") "" false sample_world)) = true) found.
Proof.
  apply (main_obtains_all (sample_env "Windows" (Response 200 sample_page))
           (Some "2020.*") "" sample_world).
  vm_compute. reflexivity.
Defined.

(** X18. Started on Darwin without [--platform], the script filters for
    the platform [Darwin], which no link has: the run ends with status 1
    and leaves the file system as it was, whatever the page offers. *)
Theorem entry_darwin_default (e : env) (a : args) (w : world) :
  host e = "Darwin" -> arg_platform a = None ->
  exit_status (fst (entry e a w)) = 1 /\ same_fs w (snd (entry e a w)).
Proof.
  intros Hhost Hplat. unfold entry. rewrite Hplat, Hhost. rewrite main_unfold.
  pose proof (proj1 (parse_same_fs e (arg_maya a) "Darwin" w)) as Hfs.
  destruct (parse e (arg_maya a) "Darwin" w) as [[found|x] w1] eqn:Hp; cbn [snd] in Hfs.
  - assert (Hnil : found = []).
    { rewrite parse_unfold in Hp. destruct (arg_maya a) as [m|]; [|discriminate].
      destruct (update_of_spec (snd (split_spec m))) as [update|]; [|discriminate].
      destruct (site e) as [msg|code body]; [discriminate|].
      destruct (code =? 200); [|discriminate].
      destruct (parse_links body) as [urls|]; [|discriminate].
      injection Hp as Hc _.
      apply (collect_unknown_platform (fst (split_spec m)) update "Darwin" urls found);
        try discriminate.
      exact Hc. }
    subst found. split; [reflexivity|exact Hfs].
  - split; [|exact Hfs]. cbn [fst].
    apply (parse_status e (arg_maya a) "Darwin" w x). rewrite Hp. reflexivity.
Qed.

Lemma entry_darwin_default_witness :
  exit_status
    (fst (entry (sample_env "Darwin" (Response 200 sample_page))
            {| arg_maya := Some "2020"; arg_platform := None; arg_dryrun := false |}
            sample_world)) = 1 /\
  same_fs sample_world
    (snd (entry (sample_env "Darwin" (Response 200 sample_page))
            {| arg_maya := Some "2020"; arg_platform := None; arg_dryrun := false |}
            sample_world)).
Proof.
  apply (entry_darwin_default (sample_env "Darwin" (Response 200 sample_page))
           {| arg_maya := Some "2020"; arg_platform := None; arg_dryrun := false |}
           sample_world); reflexivity.
Defined.

(** X19. The first [obtain] that fails ends the loop: the candidates after
    it are not attempted, and the run ends with that failure. *)
Theorem for_each_aborts (e : env) (before after : list candidate)
    (url ver : string) (n : Z) (x : exn) (w w1 w2 : world) :
  for_each e false before w = (Ok tt, w1) ->
  obtain e url ver n w1 = (Raise x, w2) ->
  for_each e false (before ++ (url, ver, n) :: after) w = (Raise x, w2).
Proof.
  revert w. induction before as [|[[u v] m] before IH]; intros w Hb Ho.
  - injection Hb as <-. cbn [app for_each]. unfold bind. rewrite Ho. reflexivity.
  - cbn [app for_each] in *. unfold bind in *.
    destruct (obtain e u v m w) as [[[]|y] w0]; [|discriminate].
    exact (IH w0 Hb Ho).
Qed.

Lemma for_each_aborts_witness :
  for_each (flaky_env link_2020_1_windows) false
    ([(link_2020_0_linux, "2020", 0)] ++ (link_2020_1_windows, "2020", 1)
       :: [(link_2018_0_mac, "2018", 0)]) sample_world
  = (Raise (DownloadError link_2020_1_windows),
     snd (obtain (flaky_env link_2020_1_windows) link_2020_1_windows "2020" 1
            (snd (obtain (flaky_env link_2020_1_windows) link_2020_0_linux "2020" 0
                    sample_world)))).
Proof.
  eapply for_each_aborts; vm_compute; reflexivity.
Defined.

(** X20. Every candidate the filter returns is one of the links it was
    given, its version has the form [20[12][0-9]] and its update number
    lies between 0 and 9. *)
Theorem filter_links_wellformed (maya platform_ : string) (url_list : list string)
    (found : list candidate) :
  filter_links maya platform_ url_list = Ok found ->
  Forall (fun c => In (url_of c) url_list /\ is_year (version_in c) /\
                   0 <= update_in c <= 9) found.
Proof.
  rewrite filter_links_unfold.
  destruct (update_of_spec (snd (split_spec maya))) as [update|]; [|discriminate].
  cbn [rbind]. intros H.
  pose proof (collect_In _ _ _ _ _ H) as Hin.
  pose proof (collect_sound _ _ _ _ _ H) as Hs.
  apply Forall_forall. intros c Hc.
  rewrite Forall_forall in Hin. rewrite Forall_forall in Hs.
  split; [exact (Hin c Hc)|].
  destruct (Hs c Hc) as [Hm _]. exact (proj2 (meta_wellformed _ _ Hm)).
Qed.

Lemma filter_links_wellformed_witness :
  Forall (fun c => In (url_of c) [link_2020_0_linux; link_2018_4_windows] /\
                   is_year (version_in c) /\ 0 <= update_in c <= 9)
    [(link_2018_4_windows, "2018", 4)].
Proof.
  apply (filter_links_wellformed "2018.4" "Windows"
           [link_2020_0_linux; link_2018_4_windows]).
  vm_compute. reflexivity.
Defined.

(** X21. The name of the destination directory of a link, given as the
    version specifier, selects that link: for the metadata [(url, version,
    update)] of a link, the specifier [<version>.<update>] keeps it. *)
Theorem dest_name_selects (u : string) (c : candidate) :
  meta u = Ok c ->
  filter_links (version_in c +:+ "." +:+ str_of_Z (update_in c)) "" [u] = Ok [c].
Proof.
  intros Hm. destruct (meta_wellformed u c Hm) as (_ & Hy & Hn).
  assert (Hspec : split_spec (version_in c +:+ "." +:+ str_of_Z (update_in c)) =
                  (version_in c, str_of_Z (update_in c)) /\
                  update_of_spec (str_of_Z (update_in c)) = Ok (update_in c)).
  { apply is_year_cases in Hy.
    assert (Hd : update_in c = 0 \/ update_in c = 1 \/ update_in c = 2 \/
                 update_in c = 3 \/ update_in c = 4 \/ update_in c = 5 \/
                 update_in c = 6 \/ update_in c = 7 \/ update_in c = 8 \/
                 update_in c = 9) by lia.
    generalize dependent (update_in c). generalize dependent (version_in c).
    intros v Hv n _ Hd. simpl in Hv.
    repeat (destruct Hv as [<-|Hv];
            [repeat (destruct Hd as [->|Hd]; [split; reflexivity|]);
             subst n; split; reflexivity|]).
    contradiction. }
  destruct Hspec as [Hs Hu].
  rewrite filter_links_unfold, Hs. cbn [fst snd]. rewrite Hu. cbn [rbind].
  rewrite collect_cons, Hm. cbn [rbind collect].
  destruct (decide (passes (version_in c) (update_in c) "" c)) as [|Hno]; [reflexivity|].
  exfalso. apply Hno. unfold passes. auto.
Qed.

Lemma dest_name_selects_witness :
  filter_links (version_in (link_2018_4_windows, "2018", 4) +:+ "." +:+
                str_of_Z (update_in (link_2018_4_windows, "2018", 4))) ""
    [link_2018_4_windows]
  = Ok [(link_2018_4_windows, "2018", 4)].
Proof.
  apply (dest_name_selects link_2018_4_windows (link_2018_4_windows, "2018", 4)).
  vm_compute. reflexivity.
Defined.

Section MoreFacts.

Lemma parse_links_undecodable (lines : list string) (ln g : string) :
  In ln lines -> match_group links_pattern ln = Some g -> Utf8.valid g = false ->
  parse_links lines = None.
Proof.
  induction lines as [|l rest IH]; intros Hin Hm Hv; [contradiction|].
  cbn [parse_links]. destruct Hin as [->|Hin].
  - rewrite Hm. unfold Utf8.decode. rewrite Hv. reflexivity.
  - rewrite (IH Hin Hm Hv).
    destruct (match_group links_pattern l) as [g'|]; [|reflexivity].
    destruct (Utf8.decode g'); reflexivity.
Qed.

End MoreFacts.

(** X22. One link of the page that is not UTF-8 makes the whole page
    unusable: once the specifier has been read, the run calls
    [sys.exit(1)] without looking at the other links, and leaves the file
    system as it was. *)
Theorem main_undecodable_link (e : env) (m platform_ : string) (dryrun : bool)
    (update : Z) (body : list string) (ln g : string) (w : world) :
  update_of_spec (snd (split_spec m)) = Ok update ->
  site e = Response 200 body ->
  In ln body -> match_group links_pattern ln = Some g -> Utf8.valid g = false ->
  fst (main e (Some m) platform_ dryrun w) = Raise (SystemExit 1) /\
  same_fs w (snd (main e (Some m) platform_ dryrun w)).
Proof.
  intros Hu Hs Hin Hm Hv.
  rewrite main_unfold, parse_unfold, Hu, Hs.
  rewrite (parse_links_undecodable body ln g Hin Hm Hv).
  split; [reflexivity|split; reflexivity].
Qed.

Lemma main_undecodable_link_witness :
  fst (main (sample_env "Linux"
               (Response 200 [anchor link_2020_0_linux ">Linux</a></li>";
                              anchor (U ("devkit+2020/Maya" +:+ String "255"%char ".zip"))
                                ">Windows</a></li>"]))
         (Some "2020") "" true sample_world) = Raise (SystemExit 1) /\
  same_fs sample_world
    (snd (main (sample_env "Linux"
                  (Response 200 [anchor link_2020_0_linux ">Linux</a></li>";
                                 anchor (U ("devkit+2020/Maya" +:+ String "255"%char ".zip"))
                                   ">Windows</a></li>"]))
            (Some "2020") "" true sample_world)).
Proof.
  apply (main_undecodable_link
           (sample_env "Linux"
              (Response 200 [anchor link_2020_0_linux ">Linux</a></li>";
                             anchor (U ("devkit+2020/Maya" +:+ String "255"%char ".zip"))
                               ">Windows</a></li>"]))
           "2020" "" true 0
           [anchor link_2020_0_linux ">Linux</a></li>";
            anchor (U ("devkit+2020/Maya" +:+ String "255"%char ".zip")) ">Windows</a></li>"]
           (anchor (U ("devkit+2020/Maya" +:+ String "255"%char ".zip")) ">Windows</a></li>")
           (U ("devkit+2020/Maya" +:+ String "255"%char ".zip"))).
  - reflexivity.
  - reflexivity.
  - right. left. reflexivity.
  - vm_compute. reflexivity.
  - vm_compute. reflexivity.
Defined.

(** X23. [obtain] keeps the archive: after an [obtain] that had to download
    and ended normally, the downloaded file [ROOT/<base name>] is still
    there, beside the destination directory. *)
Theorem obtain_keeps_archive (e : env) (url ver : string) (n : Z) (w w' : world) :
  Fs.isdir (dest_of e ver n) w = false ->
  obtain e url ver n w = (Ok tt, w') ->
  Fs.is_file (Fs.join (ROOT e) (Text.basename url)) w' = true /\
  Fs.isdir (dest_of e ver n) w' = true.
Proof.
  intros Hd H. split; [|exact (obtain_dest e url ver n w w' H)].
  unfold obtain in H. rewrite Hd in H. cbn [negb] in H. unfold bind in H.
  rewrite download_unfold in H. cbv zeta in H.
  destruct (remote e url) as [content|];
    [|destruct (partial e url); [destruct (_ || _)|]; discriminate].
  destruct (Fs.isdir _ _ || Fs.ends_with_slash _); [discriminate|].
  pose proof (extract_grows e (Fs.join (ROOT e) (Text.basename url))
                (dest_of e ver n)
                (Fs.write_file (Fs.join (ROOT e) (Text.basename url)) content
                   (logged ["-- Downloading: " +:+ url] w))) as (_ & Hf & _).
  rewrite H in Hf. cbn [snd Fs.write_file files] in Hf.
  unfold Fs.is_file. apply bool_decide_eq_true.
  apply elem_of_dom, Hf. rewrite dom_insert_L. set_solver.
Qed.

Lemma obtain_keeps_archive_witness :
  Fs.is_file (Fs.join (ROOT (sample_env "Windows" (Response 200 sample_page)))
                (Text.basename link_2020_1_windows))
    (snd (obtain (sample_env "Windows" (Response 200 sample_page))
            link_2020_1_windows "2020" 1 sample_world)) = true /\
  Fs.isdir (dest_of (sample_env "Windows" (Response 200 sample_page)) "2020" 1)
    (snd (obtain (sample_env "Windows" (Response 200 sample_page))
            link_2020_1_windows "2020" 1 sample_world)) = true.
Proof.
  apply (obtain_keeps_archive (sample_env "Windows" (Response 200 sample_page))
           link_2020_1_windows "2020" 1 sample_world).
  - vm_compute. reflexivity.
  - vm_compute. reflexivity.
Defined.
